(** * cn-stock-monitor: the collector (collector.py, class DataManager)

    A shallow embedding of [DataManager.fetch_data] and
    [DataManager.sync_data] together with the [daily_records] table they
    write to, and of the reader of the viewer (app.py).

    Conventions of the embedding.
    - A calendar day is its proleptic ordinal (Python's [date.toordinal()]),
      an integer.  The two textual forms the program uses, ['%Y-%m-%d'] and
      ['%Y%m%d'], are zero padded, so for four-digit years comparing the
      texts (as [start_dt > end_dt], the window filter and SQL [MAX(date)]
      do) is comparing the ordinals, and [timedelta(days=k)] is [+ k].
    - The numeric columns are float64, as pandas holds them: the numbers are
      IEEE 754 binary64 values ([float]) and every operation on them rounds
      to nearest, ties to even.  A missing value is NaN.
    - The library routines the program calls on a column ([pct_change],
      [rolling(5).mean()], [round(2)], [fillna]) are written out after
      pandas 2 and numpy.
    - A provider call either raises or returns rows: [option (list _)].
    - [datetime.now()] is one day, [today], for a whole run. *)

From Stdlib Require Import ZArith QArith Qround Bool List String Lia.
From Stdlib Require Import Lqa DecimalString Floats.
Import ListNotations.

Local Open Scope Z_scope.

(** ** float64 columns *)

Definition two52 : float := 0x1p52.

(** [numpy.rint]: to the nearest integer, ties to the even one, the sign
    kept.  From 2^52 on every double is an integer; below, adding and taking
    away 2^52 rounds to an integer. *)
Definition np_rint (x : float) : float :=
  if (abs x <? two52)%float then
    let r := (abs x + two52 - two52)%float in
    if get_sign x then (- r)%float else r
  else x.

(** [Series.round(2)] is numpy's [rint(x * 100) / 100]. *)
Definition round_2 (x : float) : float := (np_rint (x * 100) / 100)%float.

(** [Series.fillna(dflt)] *)
Definition fillna (dflt x : float) : float := if is_nan x then dflt else x.

(** ** Rows *)

Definition date := Z.

(** A row of [ak.stock_zh_index_daily_em]: the columns the program reads. *)
Record index_bar : Type := {
  ib_date : date;
  ib_close : float;
  ib_amount : float
}.

(** A row of [ak.fund_etf_hist_em] and of [ak.stock_zh_a_hist]. *)
Record hist_bar : Type := {
  hb_date : date;          (* 日期 *)
  hb_close : float;        (* 收盘 *)
  hb_pct_chg : float;      (* 涨跌幅 *)
  hb_amount : float;       (* 成交额 *)
  hb_turnover : float;     (* 换手率 *)
  hb_amplitude : float     (* 振幅 *)
}.

(** A row of the frame [df] once the three branches have met. *)
Record frame_row : Type := {
  f_date : date;
  f_close : float;
  f_pct_chg : float;
  f_amount : float;
  f_turnover : float;
  f_amplitude : float
}.

(** A row of the table [daily_records]. *)
Record DailyRecord : Type := {
  r_date : date;
  code : string;
  name : string;
  close : float;
  pct_chg : float;
  amount : float;
  turnover_rate : float;
  amplitude : float;
  vol_ratio : float
}.

(** ** Category of a code *)

Inductive category : Type := Index | Fund | Equity.

Definition startswith (s : string) (prefixes : list string) : bool :=
  existsb (fun p => String.prefix p s) prefixes.

Definition category_of (symbol : string) : category :=
  if startswith symbol ["sh0"; "sz3"]%string then Index
  else if startswith symbol ["5"; "1"]%string then Fund
  else Equity.

(** ** Column computations *)

(** One entry of [Series.pct_change() * 100]: pandas fills a missing value
    with the last one before it ([fill_method='pad']), divides by the entry
    above and takes 1 away.  [p] is the filled entry above, [c] the value
    of the row. *)
Definition pct_of (p c : float) : float :=
  (((if is_nan c then p else c) / p - 1) * 100)%float.

(** [Series.pct_change() * 100] below a row whose filled value is [prev]. *)
Fixpoint pct_change_from (prev : float) (closes : list float) : list float :=
  match closes with
  | [] => []
  | c :: rest =>
      pct_of prev c :: pct_change_from (if is_nan c then prev else c) rest
  end.

(** The whole column: nothing is above the first row, the shifted column
    has NaN there. *)
Definition pct_change_100 (closes : list float) : list float :=
  pct_change_from nan closes.

(** [Series.rolling(window=5).mean()] is pandas' [roll_mean]
    (pandas/_libs/window/aggregations.pyx), written out here with its
    names: one state is carried down the column, [add_mean] takes a row's
    value into it, [remove_mean] takes out the value that leaves the
    window, [calc_mean] reads the mean off.  The state: the number of
    values in the sum, the sum, how many of the values are negative, the
    Kahan compensations of the additions and of the removals, and the
    length of the run of equal values that ends with the last value. *)
Record mean_state : Type := {
  nobs : Z;
  sum_x : float;
  neg_ct : Z;
  compensation_add : float;
  compensation_remove : float;
  num_consecutive_same_value : Z;
  prev_value : float
}.

(** [<float64_t>nobs] *)
Definition float_of_Z (n : Z) : float := of_uint63 (Uint63.of_Z n).

(** A missing value ([val != val]) is passed over. *)
Definition add_mean (val : float) (st : mean_state) : mean_state :=
  if is_nan val then st
  else
    let y := (val - compensation_add st)%float in
    let t := (sum_x st + y)%float in
    {| nobs := nobs st + 1;
       sum_x := t;
       neg_ct := if get_sign val then neg_ct st + 1 else neg_ct st;
       compensation_add := (t - sum_x st - y)%float;
       compensation_remove := compensation_remove st;
       num_consecutive_same_value :=
         if (val =? prev_value st)%float
         then num_consecutive_same_value st + 1 else 1;
       prev_value := val |}.

Definition remove_mean (val : float) (st : mean_state) : mean_state :=
  if is_nan val then st
  else
    let y := (- val - compensation_remove st)%float in
    let t := (sum_x st + y)%float in
    {| nobs := nobs st - 1;
       sum_x := t;
       neg_ct := if get_sign val then neg_ct st - 1 else neg_ct st;
       compensation_add := compensation_add st;
       compensation_remove := (t - sum_x st - y)%float;
       num_consecutive_same_value := num_consecutive_same_value st;
       prev_value := prev_value st |}.

(** The sum over the count once [minp] values are in it, NaN before; the
    repeated value itself when all of them are equal, and zero where
    rounding took the mean of values of one sign across zero. *)
Definition calc_mean (minp : Z) (st : mean_state) : float :=
  if (minp <=? nobs st) && (0 <? nobs st) then
    let result := (sum_x st / float_of_Z (nobs st))%float in
    if nobs st <=? num_consecutive_same_value st then prev_value st
    else if (neg_ct st =? 0) && (result <? 0)%float then 0%float
    else if (neg_ct st =? nobs st) && (0 <? result)%float then 0%float
    else result
  else nan.

(** The loop of [roll_mean] from row [i] on, for the fixed window of [w]
    rows that ends with the row: the value [w] rows above leaves the sum,
    the row's value enters it. *)
Fixpoint roll_mean_from (values : list float) (w : nat) (minp : Z) (i : nat)
    (st : mean_state) (todo : list float) : list float :=
  match todo with
  | [] => []
  | val :: rest =>
      let st1 :=
        if (w <=? i)%nat then remove_mean (nth (i - w) values nan) st else st in
      let st2 := add_mean val st1 in
      calc_mean minp st2 :: roll_mean_from values w minp (S i) st2 rest
  end.

(** The state [roll_mean] starts from. *)
Definition mean_start (values : list float) : mean_state :=
  {| nobs := 0; sum_x := 0; neg_ct := 0;
     compensation_add := 0; compensation_remove := 0;
     num_consecutive_same_value := 0;
     prev_value := nth 0 values nan |}.

(** The values handed to [roll_mean]: an infinite value counts as missing. *)
Definition prep_value (x : float) : float := if is_infinity x then nan else x.

(** [Series.rolling(window=w).mean()]; [min_periods] is the window. *)
Definition rolling_mean (w : nat) (xs : list float) : list float :=
  let values := map prep_value xs in
  roll_mean_from values w (Z.of_nat w) 0 (mean_start values) values.

(** [(df['成交额'] / df['成交额'].rolling(window=5).mean()).round(2)]
    followed by [fillna(1.0)]. *)
Definition vol_ratios (amounts : list float) : list float :=
  map (fun am : float * float => fillna 1 (round_2 (fst am / snd am)))
      (combine amounts (rolling_mean 5 amounts)).

(** ** fetch_data *)

Definition of_index_bars (bars : list index_bar) : list frame_row :=
  map (fun bp : index_bar * float =>
         {| f_date := ib_date (fst bp);
            f_close := ib_close (fst bp);
            f_pct_chg := snd bp;
            f_amount := ib_amount (fst bp);
            f_turnover := 0;
            f_amplitude := 0 |})
      (combine bars (pct_change_100 (map ib_close bars))).

Definition of_hist_bars (bars : list hist_bar) : list frame_row :=
  map (fun b : hist_bar =>
         {| f_date := hb_date b;
            f_close := hb_close b;
            f_pct_chg := hb_pct_chg b;
            f_amount := hb_amount b;
            f_turnover := hb_turnover b;
            f_amplitude := hb_amplitude b |})
      bars.

Definition in_window (start_date end_date : date) (d : date) : bool :=
  (start_date <=? d) && (d <=? end_date).

Definition to_record (symbol nm : string) (rv : frame_row * float) : DailyRecord :=
  {| r_date := f_date (fst rv);
     code := symbol;
     name := nm;
     close := f_close (fst rv);
     pct_chg := f_pct_chg (fst rv);
     amount := f_amount (fst rv);
     turnover_rate := f_turnover (fst rv);
     amplitude := f_amplitude (fst rv);
     vol_ratio := snd rv |}.

(** Step 2 of [fetch_data]: window filter, volume ratio, code and name. *)
Definition clean (symbol nm : string) (start_date end_date : date)
    (df : list frame_row) : list DailyRecord :=
  match df with
  | [] => []
  | _ =>
      let df' := filter (fun r => in_window start_date end_date (f_date r)) df in
      map (to_record symbol nm) (combine df' (vol_ratios (map f_amount df')))
  end.

(** ** The table daily_records *)

Definition table := list DailyRecord.

(** PRIMARY KEY (date, code) *)
Definition key (r : DailyRecord) : date * string := (r_date r, code r).

Definition key_eqb (k1 k2 : date * string) : bool :=
  (fst k1 =? fst k2) && String.eqb (snd k1) (snd k2).

Definition has_key (t : table) (k : date * string) : bool :=
  existsb (fun r => key_eqb (key r) k) t.

(** One INSERT: [sqlite3.IntegrityError] ([None]) when the key is taken. *)
Definition insert_row (t : table) (r : DailyRecord) : option table :=
  if has_key t (key r) then None else Some (t ++ [r]).

(** [data.to_sql('daily_records', conn, if_exists='append', index=False)]:
    the rows are inserted in order inside one transaction, which is rolled
    back as a whole, and the error raised, when one INSERT fails. *)
Fixpoint to_sql (t : table) (data : list DailyRecord) : option table :=
  match data with
  | [] => Some t
  | r :: rest =>
      match insert_row t r with
      | Some t' => to_sql t' rest
      | None => None
      end
  end.

(** [SELECT MAX(date) FROM daily_records WHERE name = ?] *)
Fixpoint max_date (nm : string) (t : table) : option date :=
  match t with
  | [] => None
  | r :: rest =>
      if String.eqb (name r) nm then
        match max_date nm rest with
        | Some d => Some (Z.max (r_date r) d)
        | None => Some (r_date r)
        end
      else max_date nm rest
  end.

(** ** sync_data *)

(** What a run does that is visible from outside, in order. *)
Inductive event : Type :=
| Current (nm : string)                               (* "已经是最新", continue *)
| Fetch (symbol nm : string) (start_dt end_dt : date) (* self.fetch_data(...) *)
| Stored (n : nat)                                    (* to_sql, "已存入 n 条" *)
| Sleep (ms : Z).                                     (* time.sleep(0.5) *)

(** The outcome of a run: the committed table, the events, and whether the
    run ended in an exception leaving [sync_data]. *)
Record run : Type := {
  conn_after : table;
  trace : list event;
  raised : bool
}.

Definition then_run (evs : list event) (r : run) : run :=
  {| conn_after := conn_after r;
     trace := evs ++ trace r;
     raised := raised r |}.

Section Provider.

Variable stock_zh_index_daily_em : string -> option (list index_bar).
Variable fund_etf_hist_em : string -> date -> date -> option (list hist_bar).
Variable stock_zh_a_hist : string -> date -> date -> option (list hist_bar).
Variable today : date.

(** Step 1 of [fetch_data]: the call chosen by the code's prefix, with
    the columns brought to one layout.  [None] is a raised exception. *)
Definition load (symbol : string) (start_date end_date : date)
  : option (list frame_row) :=
  match category_of symbol with
  | Index => option_map of_index_bars (stock_zh_index_daily_em symbol)
  | Fund => option_map of_hist_bars (fund_etf_hist_em symbol start_date end_date)
  | Equity => option_map of_hist_bars (stock_zh_a_hist symbol start_date end_date)
  end.

Definition fetch_data (symbol nm : string) (start_date end_date : date)
  : list DailyRecord :=
  match load symbol start_date end_date with
  | Some df => clean symbol nm start_date end_date df
  | None => []                       (* except Exception: return pd.DataFrame() *)
  end.

Definition start_dt (nm : string) (conn : table) : date :=
  match max_date nm conn with
  | Some last_date => last_date + 1
  | None => today - 30
  end.

Definition end_dt : date := today.

Fixpoint sync_data (target_list : list (string * string)) (conn : table) : run :=
  match target_list with
  | [] => {| conn_after := conn; trace := []; raised := false |}
  | (symbol, nm) :: rest =>
      if end_dt <? start_dt nm conn then
        then_run [Current nm] (sync_data rest conn)
      else
        let data := fetch_data symbol nm (start_dt nm conn) end_dt in
        let call := Fetch symbol nm (start_dt nm conn) end_dt in
        match data with
        | [] => then_run [call; Sleep 500] (sync_data rest conn)
        | _ :: _ =>
            match to_sql conn data with
            | Some conn' =>
                then_run [call; Stored (List.length data); Sleep 500]
                         (sync_data rest conn')
            | None => {| conn_after := conn; trace := [call]; raised := true |}
            end
        end
  end.

End Provider.

(** ** Vocabulary of the statements *)

(** The columns of a record that come from the frame. *)
Definition core (r : DailyRecord) : date * float * float * float * float * float :=
  (r_date r, close r, pct_chg r, amount r, turnover_rate r, amplitude r).

Definition core_of_frame (f : frame_row) : date * float * float * float * float * float :=
  (f_date f, f_close f, f_pct_chg f, f_amount f, f_turnover f, f_amplitude f).

Definition core_of_hist (b : hist_bar) : date * float * float * float * float * float :=
  (hb_date b, hb_close b, hb_pct_chg b, hb_amount b,
   hb_turnover b, hb_amplitude b).

Definition windowed (start_date end_date : date) (df : list frame_row) : list frame_row :=
  filter (fun r => in_window start_date end_date (f_date r)) df.

(** The amount column of a batch of records. *)
Definition amounts_of (batch : list DailyRecord) : list float :=
  map amount batch.

(** The last value of a column down to a row that is not missing, [prev]
    when there is none: what the padding of [pct_change] puts in the row. *)
Definition last_valid (prev : float) (xs : list float) : float :=
  fold_left (fun last x => if is_nan x then last else x) xs prev.

(** The state of [roll_mean] when it comes to row [n]. *)
Fixpoint state_before (values : list float) (w : nat) (n : nat) : mean_state :=
  match n with
  | O => mean_start values
  | S i =>
      add_mean (nth i values nan)
        (if (w <=? i)%nat
         then remove_mean (nth (i - w) values nan) (state_before values w i)
         else state_before values w i)
  end.

(** What [sync_data] does with an instrument it fetches from [s] to [e],
    and with the instruments [rest] after it: the call, the batch given to
    the table, the pause (lines 91 to 96). *)
Definition fetch_then
    (idx : string -> option (list index_bar))
    (fund equity : string -> date -> date -> option (list hist_bar))
    (today : date) (symbol nm : string) (s e : date)
    (rest : list (string * string)) (conn : table) : run :=
  let data := fetch_data idx fund equity symbol nm s e in
  match data with
  | [] =>
      then_run [Fetch symbol nm s e; Sleep 500]
               (sync_data idx fund equity today rest conn)
  | _ :: _ =>
      match to_sql conn data with
      | Some conn' =>
          then_run [Fetch symbol nm s e; Stored (List.length data); Sleep 500]
                   (sync_data idx fund equity today rest conn')
      | None =>
          {| conn_after := conn; trace := [Fetch symbol nm s e]; raised := true |}
      end
  end.

(** The events one instrument leaves in a run that goes on after it: the
    report that it is current, or its fetch, the count of the rows stored
    if there were any, and the pause. *)
Inductive handled (symbol nm : string) : list event -> Prop :=
| handled_current : handled symbol nm [Current nm]
| handled_empty (s e : date) : handled symbol nm [Fetch symbol nm s e; Sleep 500]
| handled_stored (s e : date) (n : nat) :
    handled symbol nm [Fetch symbol nm s e; Stored n; Sleep 500].

(** Whether the value at position [j] is there (1) or missing (0), and the
    number of values that are there among the [len] values from [lo] on. *)
Definition present (values : list float) (j : nat) : Z :=
  if is_nan (nth j values nan) then 0 else 1.

Definition count_present (values : list float) (lo len : nat) : Z :=
  fold_right Z.add 0 (map (present values) (seq lo len)).

(** A provider answer without rows: the call raised or returned none. *)
Definition no_rows {A : Type} (answer : option (list A)) : Prop :=
  answer = None \/ answer = Some [].

Definition provider_fails
    (idx : string -> option (list index_bar))
    (fund equity : string -> date -> date -> option (list hist_bar))
    (symbol : string) (s e : date) : Prop :=
  match category_of symbol with
  | Index => no_rows (idx symbol)
  | Fund => no_rows (fund symbol s e)
  | Equity => no_rows (equity symbol s e)
  end.

(** No new data at the provider: a trading day it reports inside one
    requested range is reported for every requested range that contains
    that day. *)
Definition range_stable
    (api : string -> date -> date -> option (list hist_bar)) : Prop :=
  forall symbol s e s' e' bars b,
    api symbol s e = Some bars -> In b bars ->
    s <= hb_date b <= e -> s' <= hb_date b <= e' ->
    exists bars' b',
      api symbol s' e' = Some bars' /\ In b' bars' /\ hb_date b' = hb_date b.

(** Rows a run reports as stored. *)
Fixpoint rows_stored (evs : list event) : nat :=
  match evs with
  | [] => 0
  | Stored n :: rest => n + rows_stored rest
  | _ :: rest => rows_stored rest
  end.

(** Time taken by a stretch of events, each lasting [dur], in
    milliseconds. *)
Definition elapsed (dur : event -> Z) (evs : list event) : Z :=
  fold_right (fun ev t => dur ev + t) 0 evs.

(** ** The branches of the loop *)

Section Passes.

Variable idx : string -> option (list index_bar).
Variables fund equity : string -> date -> date -> option (list hist_bar).
Variable today : date.

(** What one instrument does to the run, by the branch taken. *)
Inductive pass (symbol nm : string) (rest : list (string * string))
    (conn : table) : run -> Prop :=
| pass_current :
    today < start_dt today nm conn ->
    pass symbol nm rest conn
         (then_run [Current nm] (sync_data idx fund equity today rest conn))
| pass_nothing :
    start_dt today nm conn <= today ->
    fetch_data idx fund equity symbol nm (start_dt today nm conn) today = [] ->
    pass symbol nm rest conn
         (then_run [Fetch symbol nm (start_dt today nm conn) today; Sleep 500]
                   (sync_data idx fund equity today rest conn))
| pass_stored (conn' : table) :
    start_dt today nm conn <= today ->
    fetch_data idx fund equity symbol nm (start_dt today nm conn) today <> [] ->
    to_sql conn
           (fetch_data idx fund equity symbol nm (start_dt today nm conn) today)
    = Some conn' ->
    pass symbol nm rest conn
         (then_run
            [Fetch symbol nm (start_dt today nm conn) today;
             Stored (List.length
                       (fetch_data idx fund equity symbol nm
                                   (start_dt today nm conn) today));
             Sleep 500]
            (sync_data idx fund equity today rest conn'))
| pass_raised :
    start_dt today nm conn <= today ->
    fetch_data idx fund equity symbol nm (start_dt today nm conn) today <> [] ->
    to_sql conn
           (fetch_data idx fund equity symbol nm (start_dt today nm conn) today)
    = None ->
    pass symbol nm rest conn
         {| conn_after := conn;
            trace := [Fetch symbol nm (start_dt today nm conn) today];
            raised := true |}.

End Passes.

(** One pass of the loop: it goes on with a table, or stops the run with
    the exception of [to_sql]. *)
Inductive passed : Type :=
| Goes (evs : list event) (conn' : table)
| Stops (evs : list event).

Definition one_pass
    (idx : string -> option (list index_bar))
    (fund equity : string -> date -> date -> option (list hist_bar))
    (today : date) (symbol nm : string) (conn : table) : passed :=
  if end_dt today <? start_dt today nm conn then Goes [Current nm] conn
  else
    let data := fetch_data idx fund equity symbol nm (start_dt today nm conn)
                           (end_dt today) in
    let call := Fetch symbol nm (start_dt today nm conn) (end_dt today) in
    match data with
    | [] => Goes [call; Sleep 500] conn
    | _ :: _ =>
        match to_sql conn data with
        | Some conn' => Goes [call; Stored (List.length data); Sleep 500] conn'
        | None => Stops [call]
        end
    end.

(** Every row stored under [nm] is at most 30 days older than [today]. *)
Definition recent (today : date) (nm : string) (t : table) : Prop :=
  forall r, In r t -> name r = nm -> today - 30 <= r_date r.

(** ** The rest of the program *)

(** The list the collector is run on ([__main__] of collector.py). *)
Definition monitored_targets : list (string * string) :=
  [ ("sh000001", "上证指数");
    ("sz399001", "深证成指");
    ("159919", "沪深300ETF");
    ("513770", "港股互联网");
    ("513100", "纳指ETF");
    ("513500", "标普500ETF");
    ("518880", "黄金ETF");
    ("513880", "日经225") ]%string.

(** The database file: still without the table ([None]), or with it. *)
Definition database : Type := option table.

(** [DataManager._init_db]: CREATE TABLE IF NOT EXISTS; the table the
    connection then has. *)
Definition _init_db (db : database) : table :=
  match db with
  | Some t => t
  | None => []
  end.

(** [__main__] of collector.py: [DataManager()], then [sync_data]. *)
Definition collector_main
    (idx : string -> option (list index_bar))
    (fund equity : string -> date -> date -> option (list hist_bar))
    (today : date) (db : database) : run :=
  sync_data idx fund equity today monitored_targets (_init_db db).

(** [load_data] of app.py: the rows whose date is BETWEEN the two bounds;
    a failing query (no table) gives the empty frame.  SQL leaves the order
    of the rows open, so nothing is stated about it. *)
Definition load_data (db : database) (start_date end_date : date)
  : list DailyRecord :=
  match db with
  | Some t =>
      filter (fun r => (start_date <=? r_date r) && (r_date r <=? end_date)) t
  | None => []                               (* except Exception *)
  end.

(** The viewer's filter [df[df['name'].isin(selected_targets)]]. *)
Definition isin (selected_targets : list string) (df : list DailyRecord)
  : list DailyRecord :=
  filter (fun r => existsb (String.eqb (name r)) selected_targets) df.

(** ** The numbers the viewer prints *)

(** The value of a cell as [format_unit] is given it: the number the cell
    holds (every finite double is a rational), an infinity, or missing.
    The division by the unit is the division of that number, where
    Python's result is the double next to it. *)
Inductive fval : Type :=
| Fin (q : Q)
| PInf
| NInf
| NaN.

Definition fmap (f : Q -> Q) (v : fval) : fval :=
  match v with
  | Fin q => Fin (Qred (f q))
  | PInf => PInf
  | NInf => NInf
  | NaN => NaN
  end.

(** To the nearest integer, ties to the even one. *)
Definition rint (q : Q) : Z :=
  let f := Qfloor q in
  match (q - inject_Z f ?= 1 # 2)%Q with
  | Lt => f
  | Gt => f + 1
  | Eq => if Z.even f then f else f + 1
  end.

(** The decimal digits of a natural number. *)
Definition digits (n : Z) : string :=
  NilZero.string_of_uint (N.to_uint (Z.to_N n)).

(** [f"{x:.2f}"]: the sign, the integer part, a point and two decimals of
    the number rounded (ties to even) to hundredths. *)
Definition format_2f (x : fval) : string :=
  match x with
  | Fin q =>
      let n := Z.abs (rint (q * 100)) in
      ((match (q ?= 0)%Q with Lt => "-" | _ => "" end)
       ++ digits (n / 100) ++ "."
       ++ digits ((n mod 100) / 10) ++ digits (n mod 10))%string
  | PInf => "inf"%string
  | NInf => "-inf"%string
  | NaN => "nan"%string
  end.

(** [val >= c] for a float [val]: false for NaN. *)
Definition fge (val : fval) (c : Q) : bool :=
  match val with
  | Fin q => Qle_bool c q
  | PInf => true
  | NInf | NaN => false
  end.

(** [format_unit] of app.py. *)
Definition format_unit (val : fval) (metric : string) : string :=
  if String.eqb metric "amount" then
    if fge val 100000000 then
      (format_2f (fmap (fun q => q / 100000000)%Q val) ++ "亿")%string
    else if fge val 10000 then
      (format_2f (fmap (fun q => q / 10000)%Q val) ++ "万")%string
    else format_2f val
  else format_2f val.

(** The provider and the day that one start of the collector meets. *)
Record world : Type := {
  w_index : string -> option (list index_bar);
  w_fund : string -> date -> date -> option (list hist_bar);
  w_equity : string -> date -> date -> option (list hist_bar);
  w_today : date
}.

(** The collector started once per world, one start after the other, on
    the database the start before it left (what [to_sql] committed stays,
    also when the run raised). *)
Fixpoint collector_runs (worlds : list world) (db : database) : list run :=
  match worlds with
  | [] => []
  | w :: rest =>
      let r := collector_main (w_index w) (w_fund w) (w_equity w) (w_today w) db in
      r :: collector_runs rest (Some (conn_after r))
  end.

(** [ASSET_GROUPS] of app.py. *)
Definition ASSET_GROUPS : list (string * list string) :=
  [ ("大盘指数", ["上证指数"; "深证成指"]);
    ("国内权益", ["沪深300ETF"]);
    ("跨境/全球", ["港股互联网"; "纳指ETF"; "标普500ETF"; "日经225"]);
    ("大宗商品", ["黄金ETF"]) ]%string.

(** [d[k]] of a dict written as its list of items; [None] is KeyError. *)
Fixpoint getitem {V : Type} (d : list (string * V)) (k : string) : option V :=
  match d with
  | [] => None
  | (k', v) :: rest => if String.eqb k' k then Some v else getitem rest k
  end.

(** The loop that fills [relevant_targets] in app.py. *)
Fixpoint relevant_targets (selected_groups : list string) : option (list string) :=
  match selected_groups with
  | [] => Some []
  | group :: rest =>
      match getitem ASSET_GROUPS group with
      | Some names =>
          match relevant_targets rest with
          | Some more => Some (names ++ more)
          | None => None
          end
      | None => None
      end
  end.

(** The names selected when the viewer starts:
    [default=relevant_targets[:3]]. *)
Definition default_selected (selected_groups : list string)
  : option (list string) :=
  option_map (firstn 3) (relevant_targets selected_groups).

(** A stored row with a code of the list is stored under the list's name
    for that code. *)
Definition labelled (target_list : list (string * string)) (t : table) : Prop :=
  forall r symbol nm,
    In r t -> In (symbol, nm) target_list -> code r = symbol -> name r = nm.

(** No provider answer holds a day twice. *)
Definition one_row_per_day
    (idx : string -> option (list index_bar))
    (fund equity : string -> date -> date -> option (list hist_bar)) : Prop :=
  (forall symbol bars, idx symbol = Some bars -> NoDup (map ib_date bars)) /\
  (forall symbol s e bars,
     fund symbol s e = Some bars -> NoDup (map hb_date bars)) /\
  (forall symbol s e bars,
     equity symbol s e = Some bars -> NoDup (map hb_date bars)).

(** The days a provider answers with, in its order; none when it raises. *)
Definition provider_dates
    (idx : string -> option (list index_bar))
    (fund equity : string -> date -> date -> option (list hist_bar))
    (symbol : string) (s e : date) : list date :=
  match category_of symbol with
  | Index => match idx symbol with Some bars => map ib_date bars | None => [] end
  | Fund => match fund symbol s e with Some bars => map hb_date bars | None => [] end
  | Equity => match equity symbol s e with Some bars => map hb_date bars | None => [] end
  end.

(** Events of one kind in a trace. *)
Definition fetches (evs : list event) : nat :=
  List.length (filter (fun ev => match ev with Fetch _ _ _ _ => true | _ => false end) evs).

Definition currents (evs : list event) : nat :=
  List.length (filter (fun ev => match ev with Current _ => true | _ => false end) evs).

Definition sleeps (evs : list event) : nat :=
  List.length (filter (fun ev => match ev with Sleep _ => true | _ => false end) evs).

(** ** A provider and a table to run the program on *)

Definition day0 : date := 739200.

Definition etf_bar (d : date) (c p a : float) : hist_bar :=
  {| hb_date := d; hb_close := c; hb_pct_chg := p; hb_amount := a;
     hb_turnover := 1.5; hb_amplitude := 1.25 |}.

Arguments etf_bar d%_Z c%_float p%_float a%_float.

(** Five trading days of an ETF; the turnover of the fifth is six times
    that of each of the four before it. *)
Definition ex_etf_bars : list hist_bar :=
  [ etf_bar (day0 + 1) 10 0 1;
    etf_bar (day0 + 2) 11 10 1;
    etf_bar (day0 + 3) 11 0 1;
    etf_bar (day0 + 4) 11 0 1;
    etf_bar (day0 + 5) 22 100 6 ].

(** Two days of an index. *)
Definition ex_index_bars : list index_bar :=
  [ {| ib_date := day0 + 4; ib_close := 100; ib_amount := 10 |};
    {| ib_date := day0 + 5; ib_close := 110; ib_amount := 20 |} ].

Definition ex_index (symbol : string) : option (list index_bar) :=
  if String.eqb symbol "sh000001" then Some ex_index_bars else None.

(** The provider sends the whole history of 513100 whatever the range,
    raises for 159919 and has nothing for any other fund. *)
Definition ex_fund (symbol : string) (start_date end_date : date)
  : option (list hist_bar) :=
  if String.eqb symbol "513100" then Some ex_etf_bars
  else if String.eqb symbol "159919" then None
  else Some [].

Definition ex_equity (symbol : string) (start_date end_date : date)
  : option (list hist_bar) := None.

Definition ex_today : date := day0 + 5.

Definition ex_fetch : string -> string -> date -> date -> list DailyRecord :=
  fetch_data ex_index ex_fund ex_equity.

Definition ex_sync : list (string * string) -> table -> run :=
  sync_data ex_index ex_fund ex_equity ex_today.

(** A table left by an earlier configuration, in which 513100 was stored
    under another label. *)
Definition ex_stale_table : table :=
  [ {| r_date := day0 + 5; code := "513100"; name := "Nasdaq 100";
       close := 22; pct_chg := 100; amount := 6;
       turnover_rate := 1.5; amplitude := 1.25;
       vol_ratio := 1 |} ].

(** A table that is up to date for the label "Nasdaq ETF". *)
Definition ex_current_table : table :=
  [ {| r_date := day0 + 5; code := "513100"; name := "Nasdaq ETF";
       close := 22; pct_chg := 100; amount := 6;
       turnover_rate := 1.5; amplitude := 1.25;
       vol_ratio := 3 |} ].

(** A table that holds "Nasdaq ETF" up to the second day. *)
Definition ex_partial_table : table :=
  [ {| r_date := day0 + 2; code := "513100"; name := "Nasdaq ETF";
       close := 11; pct_chg := 10; amount := 1;
       turnover_rate := 1.5; amplitude := 1.25;
       vol_ratio := 1 |} ].

(** Six days of a fund whose amount is missing on the third day. *)
Definition ex_gap_fund (symbol : string) (start_date end_date : date)
  : option (list hist_bar) :=
  Some [ etf_bar (day0 + 1) 10 0 1; etf_bar (day0 + 2) 10 0 1;
         etf_bar (day0 + 3) 10 0 nan; etf_bar (day0 + 4) 10 0 1;
         etf_bar (day0 + 5) 10 0 1; etf_bar (day0 + 6) 10 0 4 ].

(** Five days of a fund with one and the same amount, a third. *)
Definition ex_flat_fund (symbol : string) (start_date end_date : date)
  : option (list hist_bar) :=
  Some [ etf_bar (day0 + 1) 10 0 (1 / 3); etf_bar (day0 + 2) 10 0 (1 / 3);
         etf_bar (day0 + 3) 10 0 (1 / 3); etf_bar (day0 + 4) 10 0 (1 / 3);
         etf_bar (day0 + 5) 10 0 (1 / 3) ].

(** Two days of an index that closes the second day where it closed the
    first. *)
Definition ex_flat_index (symbol : string) : option (list index_bar) :=
  Some [ {| ib_date := day0 + 4; ib_close := 3050.25; ib_amount := 10 |};
         {| ib_date := day0 + 5; ib_close := 3050.25; ib_amount := 20 |} ].

(** Only the pauses take time. *)
Definition ex_dur (ev : event) : Z :=
  match ev with
  | Sleep ms => Z.max 0 ms
  | _ => 0
  end.

(** * Properties *)

(** ** float64 *)

Lemma is_nan_eq (x : float) : is_nan x = true -> x = nan.
Proof.
  unfold is_nan. rewrite FloatAxioms.eqb_spec. intros H. apply Prim2SF_inj.
  change (Prim2SF nan) with S754_nan.
  destruct (Prim2SF x) as [sg|sg| |sg m ex]; try reflexivity;
    exfalso; revert H; unfold SFeqb, SFcompare.
  - discriminate.
  - destruct sg; discriminate.
  - rewrite Z.compare_refl, Pos.compare_cont_refl. destruct sg; discriminate.
Qed.

Lemma div_nan_r (x : float) : (x / nan)%float = nan.
Proof.
  apply Prim2SF_inj. rewrite div_spec.
  change (Prim2SF nan) with S754_nan.
  destruct (Prim2SF x); reflexivity.
Qed.

(** The values that are numbers other than zero. *)
Lemma finite_cases (x : float) :
  is_nan x = false -> is_infinity x = false -> is_zero x = false ->
  exists sg m ex, Prim2SF x = S754_finite sg m ex.
Proof.
  unfold is_nan, is_infinity, is_zero.
  rewrite !FloatAxioms.eqb_spec, abs_spec.
  change (Prim2SF infinity) with (S754_infinity false).
  change (Prim2SF zero) with (S754_zero false).
  destruct (Prim2SF x) as [sg|sg| |sg m ex]; simpl; try discriminate.
  intros _ _ _. now exists sg, m, ex.
Qed.

Lemma div_eucl_same (m k : positive) :
  Z.div_eucl (Z.shiftl (Z.pos m) (Z.pos k)) (Z.pos m) = (2 ^ Z.pos k, 0).
Proof.
  rewrite Z.shiftl_mul_pow2 by lia.
  pose proof (Z.div_eucl_eq (Z.pos m * 2 ^ Z.pos k) (Z.pos m) ltac:(lia)) as H.
  pose proof (Z.mod_pos_bound (Z.pos m * 2 ^ Z.pos k) (Z.pos m) ltac:(lia)) as Hb.
  unfold Z.modulo in Hb.
  destruct (Z.div_eucl (Z.pos m * 2 ^ Z.pos k) (Z.pos m)) as [q r].
  assert (Hq : q = 2 ^ Z.pos k) by nia.
  subst q. f_equal. lia.
Qed.

(** A number other than zero divided by itself is 1.0: the quotient of the
    mantissas is a power of two and nothing is rounded away. *)
Lemma div_same (x : float) :
  is_nan x = false -> is_infinity x = false -> is_zero x = false ->
  (x / x)%float = 1%float.
Proof.
  intros Hn Hi Hz.
  destruct (finite_cases x Hn Hi Hz) as (sg & m & ex & Hx).
  apply Prim2SF_inj. rewrite div_spec, Hx.
  unfold SF64div, SFdiv, SFdiv_core_binary. cbv zeta.
  replace (Zdigits2 (Z.pos m) + ex - (Zdigits2 (Z.pos m) + ex)) with 0 by lia.
  replace (ex - ex) with 0 by lia.
  change (IntDef.Z.min (fexp prec emax 0) 0) with (-53).
  change (0 - -53) with 53.
  cbv beta iota. rewrite div_eucl_same.
  unfold new_location.
  replace (xorb sg sg) with false by now destruct sg.
  destruct (IntDef.Z.even (Z.pos m)); reflexivity.
Qed.

(** Zero divided by itself is NaN. *)
Lemma div_zero_zero (x : float) : is_zero x = true -> (x / x)%float = nan.
Proof.
  unfold is_zero. rewrite FloatAxioms.eqb_spec.
  change (Prim2SF zero) with (S754_zero false).
  intros Hz. apply Prim2SF_inj. rewrite div_spec.
  destruct (Prim2SF x) as [sg|sg| |sg m ex]; try reflexivity;
    exfalso; revert Hz; unfold SFeqb, SFcompare; destruct sg; discriminate.
Qed.

Lemma pct_of_nan (c : float) : pct_of nan c = nan.
Proof.
  unfold pct_of. rewrite div_nan_r. reflexivity.
Qed.

Lemma vol_ratio_of_nan_mean (a : float) :
  fillna 1 (round_2 (a / nan)) = 1%float.
Proof.
  rewrite div_nan_r. reflexivity.
Qed.

(** [np_rint] on ties and next to a tie, and [round_2] on the quotient
    203 / 200, the double next below 1.015. *)
Lemma np_rint_ties_to_even :
  np_rint 0.5 = 0%float /\ np_rint 1.5 = 2%float /\ np_rint 2.5 = 2%float /\
  np_rint (-2.5) = (-2)%float /\ np_rint (-0.25) = (-0)%float /\
  np_rint (203 / 200 * 100) = 101%float /\
  round_2 (203 / 200) = (101 / 100)%float /\
  round_2 infinity = infinity /\ round_2 nan = nan.
Proof.
  repeat split.
Qed.

(** ** The rolling mean *)

Lemma roll_mean_from_length (values : list float) (w : nat) (minp : Z)
    (i : nat) (st : mean_state) (todo : list float) :
  List.length (roll_mean_from values w minp i st todo) = List.length todo.
Proof.
  revert i st. induction todo as [|val rest IH]; intros i st; simpl;
    [reflexivity | now rewrite IH].
Qed.

Lemma rolling_mean_length (w : nat) (xs : list float) :
  List.length (rolling_mean w xs) = List.length xs.
Proof.
  unfold rolling_mean. cbv zeta. now rewrite roll_mean_from_length, length_map.
Qed.

Lemma add_mean_nobs (val : float) (st : mean_state) :
  nobs (add_mean val st) <= nobs st + 1.
Proof.
  unfold add_mean. destruct (is_nan val); simpl; lia.
Qed.

Lemma calc_mean_few (minp : Z) (st : mean_state) :
  nobs st < minp -> calc_mean minp st = nan.
Proof.
  intros H. unfold calc_mean.
  destruct (Z.leb_spec minp (nobs st)); [lia | reflexivity].
Qed.

(** While fewer rows than the window have been seen the mean is missing. *)
Lemma roll_mean_from_short (values : list float) (w : nat) (i : nat)
    (st : mean_state) (todo : list float) (k : nat) (v : float) :
  nobs st <= Z.of_nat i ->
  nth_error (roll_mean_from values w (Z.of_nat w) i st todo) k = Some v ->
  (S (i + k) < w)%nat ->
  v = nan.
Proof.
  revert i st k. induction todo as [|val rest IH]; intros i st k Hn Hv Hk.
  - destruct k; discriminate Hv.
  - simpl in Hv. destruct (Nat.leb_spec w i) as [Hw|Hw]; [lia|].
    pose proof (add_mean_nobs val st) as Ha.
    destruct k as [|k]; simpl in Hv.
    + injection Hv as <-. apply calc_mean_few. lia.
    + apply (IH (S i) (add_mean val st) k); [lia | exact Hv | lia].
Qed.

Lemma rolling_mean_short (w : nat) (xs : list float) (i : nat) (m : float) :
  nth_error (rolling_mean w xs) i = Some m -> (S i < w)%nat -> m = nan.
Proof.
  unfold rolling_mean. cbv zeta. intros Hm Hi.
  refine (roll_mean_from_short _ w 0 _ _ i m _ Hm Hi). simpl. lia.
Qed.

(** ** The frame after cleaning *)

Lemma vol_ratios_length (amounts : list float) :
  List.length (vol_ratios amounts) = List.length amounts.
Proof.
  unfold vol_ratios.
  rewrite length_map, length_combine, rolling_mean_length. apply Nat.min_id.
Qed.

Lemma map_fst_combine {A B : Type} (l : list A) (l' : list B) :
  List.length l = List.length l' -> map fst (combine l l') = l.
Proof.
  revert l'. induction l as [|a l IH]; intros [|b l'] H; simpl in *;
    try discriminate; try reflexivity.
  f_equal. apply IH. now injection H.
Qed.

Lemma map_snd_combine {A B : Type} (l : list A) (l' : list B) :
  List.length l = List.length l' -> map snd (combine l l') = l'.
Proof.
  revert l'. induction l as [|a l IH]; intros [|b l'] H; simpl in *;
    try discriminate; try reflexivity.
  f_equal. apply IH. now injection H.
Qed.

Lemma nth_error_combine {A B : Type} (l : list A) (l' : list B) (i : nat)
    (p : A * B) :
  nth_error (combine l l') i = Some p ->
  nth_error l i = Some (fst p) /\ nth_error l' i = Some (snd p).
Proof.
  revert l' i. induction l as [|a l IH]; intros [|b l'] [|i] H; simpl in *;
    try discriminate.
  - injection H as <-. now split.
  - now apply IH.
Qed.

Lemma clean_unfold (symbol nm : string) (s e : date) (df : list frame_row) :
  clean symbol nm s e df =
  map (to_record symbol nm)
      (combine (windowed s e df) (vol_ratios (map f_amount (windowed s e df)))).
Proof.
  destruct df; reflexivity.
Qed.

Lemma clean_core (symbol nm : string) (s e : date) (df : list frame_row) :
  map core (clean symbol nm s e df) = map core_of_frame (windowed s e df).
Proof.
  rewrite clean_unfold, map_map.
  rewrite (map_ext _ (fun rv => core_of_frame (fst rv))) by reflexivity.
  rewrite <- (map_map fst core_of_frame), map_fst_combine; [reflexivity|].
  now rewrite vol_ratios_length, length_map.
Qed.

Lemma clean_vol_ratio (symbol nm : string) (s e : date) (df : list frame_row) :
  map vol_ratio (clean symbol nm s e df) =
  vol_ratios (map f_amount (windowed s e df)).
Proof.
  rewrite clean_unfold, map_map.
  rewrite (map_ext _ snd) by reflexivity.
  apply map_snd_combine.
  now rewrite vol_ratios_length, length_map.
Qed.

Lemma clean_code_name (symbol nm : string) (s e : date) (df : list frame_row) :
  Forall (fun r => code r = symbol /\ name r = nm) (clean symbol nm s e df).
Proof.
  rewrite clean_unfold. apply Forall_forall. intros r Hr.
  apply in_map_iff in Hr. destruct Hr as [rv [<- _]]. now split.
Qed.

Lemma clean_dates (symbol nm : string) (s e : date) (df : list frame_row) :
  map r_date (clean symbol nm s e df) = map f_date (windowed s e df).
Proof.
  pose proof (clean_core symbol nm s e df) as H.
  apply (f_equal (map (fun c : date * float * float * float * float * float =>
                         fst (fst (fst (fst (fst c))))))) in H.
  now rewrite !map_map in H.
Qed.

Lemma clean_in_window (symbol nm : string) (s e : date) (df : list frame_row) :
  Forall (fun r => s <= r_date r <= e) (clean symbol nm s e df).
Proof.
  apply Forall_forall. intros r Hr.
  assert (Hd : In (r_date r) (map r_date (clean symbol nm s e df)))
    by now apply in_map.
  rewrite clean_dates in Hd. apply in_map_iff in Hd.
  destruct Hd as [f [Hf Hin]]. apply filter_In in Hin.
  destruct Hin as [_ Hw]. unfold in_window in Hw.
  apply andb_true_iff in Hw. rewrite <- Hf. lia.
Qed.

(** ** The rolling ratio *)

Lemma vol_ratios_nth (amounts : list float) (i : nat) (v : float) :
  nth_error (vol_ratios amounts) i = Some v ->
  exists a m,
    nth_error amounts i = Some a /\
    nth_error (rolling_mean 5 amounts) i = Some m /\
    v = fillna 1 (round_2 (a / m)).
Proof.
  unfold vol_ratios. intros H. rewrite nth_error_map in H.
  destruct (nth_error (combine amounts (rolling_mean 5 amounts)) i)
    as [[a m]|] eqn:Hc; [|discriminate H].
  apply nth_error_combine in Hc. destruct Hc as [Ha Hm].
  exists a, m. simpl in *. injection H as <-. now split.
Qed.

Lemma amounts_of_clean (symbol nm : string) (s e : date) (df : list frame_row) :
  amounts_of (clean symbol nm s e df) = map f_amount (windowed s e df).
Proof.
  pose proof (clean_core symbol nm s e df) as H.
  apply (f_equal (map (fun c : date * float * float * float * float * float =>
                         snd (fst (fst c))))) in H.
  rewrite !map_map in H. exact H.
Qed.

Lemma fetch_data_vol_ratio
    (idx : string -> option (list index_bar))
    (fund equity : string -> date -> date -> option (list hist_bar))
    (symbol nm : string) (s e : date) :
  map vol_ratio (fetch_data idx fund equity symbol nm s e) =
  vol_ratios (amounts_of (fetch_data idx fund equity symbol nm s e)).
Proof.
  unfold fetch_data. destruct (load idx fund equity symbol s e) as [df|];
    [|reflexivity].
  now rewrite clean_vol_ratio, amounts_of_clean.
Qed.

(** The record at position [i] of a batch, its amount and the rolling mean
    of the batch's amounts at [i]. *)
Lemma fetch_data_vol_ratio_nth
    (idx : string -> option (list index_bar))
    (fund equity : string -> date -> date -> option (list hist_bar))
    (symbol nm : string) (s e : date) (i : nat) (r : DailyRecord) :
  nth_error (fetch_data idx fund equity symbol nm s e) i = Some r ->
  exists m,
    nth_error (rolling_mean 5 (amounts_of (fetch_data idx fund equity symbol nm s e))) i
    = Some m /\
    vol_ratio r = fillna 1 (round_2 (amount r / m)).
Proof.
  intros Hr.
  assert (Hv : nth_error (map vol_ratio (fetch_data idx fund equity symbol nm s e)) i
               = Some (vol_ratio r)) by now apply map_nth_error.
  assert (Ha : nth_error (amounts_of (fetch_data idx fund equity symbol nm s e)) i
               = Some (amount r)) by now apply map_nth_error.
  rewrite fetch_data_vol_ratio in Hv. apply vol_ratios_nth in Hv.
  destruct Hv as (a & m & Ha' & Hm & Hv).
  rewrite Ha in Ha'. injection Ha' as <-.
  exists m. now split.
Qed.

(** C2 (as stated, refuted): the fifth record of a batch has only four
    records before it, fewer than five, and yet its [vol_ratio] is the
    rounded quotient (here 6 / 2 = 3), not the default 1.0. *)
Lemma vol_ratio_fifth_row_not_default :
  let batch := ex_fetch "513100" "Nasdaq ETF" (ex_today - 30) ex_today in
  exists r,
    nth_error batch 4 = Some r /\ (4 < 5)%nat /\
    vol_ratio r = 3%float /\ (vol_ratio r =? 1)%float = false.
Proof.
  cbv zeta. eexists. split; [vm_compute; reflexivity|].
  split; [lia|]. split; reflexivity.
Qed.

(** C2 (amended): in the batch [fetch_data] returns, the record at position
    [i] (counted from 0, so [i] records precede it) has [vol_ratio] 1.0 when
    fewer than 4 records precede it; when at least 4 precede it, with [m]
    the rolling mean over 5 rows of the batch's amounts at its row,
    [vol_ratio] is the float64 quotient [amount / m] rounded to two decimals
    by [rint(x * 100) / 100], and 1.0 where that is NaN. *)
Theorem vol_ratio_rolling_window
    (idx : string -> option (list index_bar))
    (fund equity : string -> date -> date -> option (list hist_bar))
    (symbol nm : string) (s e : date) (i : nat) (r : DailyRecord) :
  let batch := fetch_data idx fund equity symbol nm s e in
  let m := nth i (rolling_mean 5 (amounts_of batch)) nan in
  nth_error batch i = Some r ->
  ((i < 4)%nat -> vol_ratio r = 1%float) /\
  ((4 <= i)%nat ->
   vol_ratio r = fillna 1 (np_rint (amount r / m * 100) / 100)%float) /\
  ((4 <= i)%nat -> is_nan (np_rint (amount r / m * 100) / 100)%float = false ->
   vol_ratio r = (np_rint (amount r / m * 100) / 100)%float) /\
  ((4 <= i)%nat -> is_nan (np_rint (amount r / m * 100) / 100)%float = true ->
   vol_ratio r = 1%float).
Proof.
  cbv zeta. intros Hr.
  destruct (fetch_data_vol_ratio_nth idx fund equity symbol nm s e i r Hr)
    as (m & Hm & Hv).
  rewrite (nth_error_nth _ _ nan Hm).
  split; [|split; [|split]].
  - intros Hi. rewrite Hv.
    rewrite (rolling_mean_short 5 _ i m Hm) by lia.
    apply vol_ratio_of_nan_mean.
  - intros _. exact Hv.
  - intros _ Hn. rewrite Hv. unfold fillna, round_2. now rewrite Hn.
  - intros _ Hn. rewrite Hv. unfold fillna, round_2. now rewrite Hn.
Qed.

Lemma vol_ratio_rolling_window_witness :
  exists r,
    nth_error (ex_fetch "513100" "Nasdaq ETF" (ex_today - 30) ex_today) 4 = Some r /\
    vol_ratio r = (np_rint (6 / 2 * 100) / 100)%float /\
    vol_ratio r = 3%float.
Proof.
  eexists. split; [vm_compute; reflexivity|].
  split; [|reflexivity].
  refine (proj1 (proj2 (proj2 (vol_ratio_rolling_window ex_index ex_fund ex_equity
                                 "513100" "Nasdaq ETF" (ex_today - 30) ex_today
                                 4 _ eq_refl)))
                _ _).
  - lia.
  - reflexivity.
Defined.

(** ** The three branches *)

Lemma pct_change_from_length (prev : float) (closes : list float) :
  List.length (pct_change_from prev closes) = List.length closes.
Proof.
  revert prev. induction closes as [|c rest IH]; intros prev; simpl;
    [reflexivity | now rewrite IH].
Qed.

Lemma pct_change_100_length (closes : list float) :
  List.length (pct_change_100 closes) = List.length closes.
Proof.
  apply pct_change_from_length.
Qed.

Lemma pct_change_from_nth (prev : float) (closes : list float) (i : nat)
    (c : float) :
  nth_error closes i = Some c ->
  nth_error (pct_change_from prev closes) i
  = Some (pct_of (last_valid prev (firstn i closes)) c).
Proof.
  revert prev i. induction closes as [|x rest IH]; intros prev i Hc.
  - destruct i; discriminate Hc.
  - destruct i as [|i]; simpl in *.
    + now injection Hc as <-.
    + now apply IH.
Qed.

Lemma last_valid_snoc (prev : float) (xs : list float) (i : nat) (p : float) :
  nth_error xs i = Some p -> is_nan p = false ->
  last_valid prev (firstn (S i) xs) = p.
Proof.
  revert prev i. induction xs as [|x rest IH]; intros prev i Hp Hn.
  - destruct i; discriminate Hp.
  - destruct i as [|i]; simpl in *.
    + injection Hp as ->. now rewrite Hn.
    + now apply IH.
Qed.

Lemma of_index_bars_pct_chg (bars : list index_bar) :
  map f_pct_chg (of_index_bars bars) = pct_change_100 (map ib_close bars).
Proof.
  unfold of_index_bars. rewrite map_map. simpl.
  rewrite (map_ext _ snd) by reflexivity.
  apply map_snd_combine. now rewrite pct_change_100_length, length_map.
Qed.

Lemma of_index_bars_zero (bars : list index_bar) :
  Forall (fun r => f_turnover r = 0%float /\ f_amplitude r = 0%float)
         (of_index_bars bars).
Proof.
  apply Forall_forall. intros r Hr. unfold of_index_bars in Hr.
  apply in_map_iff in Hr. destruct Hr as [bp [<- _]]. now split.
Qed.

Lemma of_index_bars_length (bars : list index_bar) :
  List.length (of_index_bars bars) = List.length bars.
Proof.
  unfold of_index_bars.
  rewrite length_map, length_combine, pct_change_100_length, length_map.
  apply Nat.min_id.
Qed.

(** Filtering the frame of an index is filtering the provider's rows paired
    with the percent changes computed over all of them. *)
Lemma windowed_index_pct (s e : date) (bars : list index_bar) (pcts : list float) :
  map f_pct_chg
      (windowed s e
         (map (fun bp : index_bar * float =>
                 {| f_date := ib_date (fst bp); f_close := ib_close (fst bp);
                    f_pct_chg := snd bp; f_amount := ib_amount (fst bp);
                    f_turnover := 0; f_amplitude := 0 |})
              (combine bars pcts))) =
  map snd (filter (fun dp : date * float => in_window s e (fst dp))
                  (combine (map ib_date bars) pcts)).
Proof.
  revert pcts. induction bars as [|b bars IH]; intros [|v pcts];
    try reflexivity.
  unfold windowed in *. simpl.
  destruct (in_window s e (ib_date b)); simpl; now rewrite IH.
Qed.

Lemma windowed_index_amount (s e : date) (bars : list index_bar) (pcts : list float) :
  List.length pcts = List.length bars ->
  map f_amount
      (windowed s e
         (map (fun bp : index_bar * float =>
                 {| f_date := ib_date (fst bp); f_close := ib_close (fst bp);
                    f_pct_chg := snd bp; f_amount := ib_amount (fst bp);
                    f_turnover := 0; f_amplitude := 0 |})
              (combine bars pcts))) =
  map ib_amount (filter (fun b => in_window s e (ib_date b)) bars).
Proof.
  revert pcts. induction bars as [|b bars IH]; intros [|v pcts] Hl;
    try reflexivity; try discriminate Hl.
  unfold windowed in *. simpl.
  destruct (in_window s e (ib_date b)); simpl; rewrite IH; auto.
Qed.

(** The date, the close and the percent change of the rows of an index's
    frame that the window keeps. *)
Lemma windowed_index_rows (s e : date) (bars : list index_bar) (pcts : list float) :
  map (fun f => (f_date f, f_close f, f_pct_chg f))
      (windowed s e
         (map (fun bp : index_bar * float =>
                 {| f_date := ib_date (fst bp); f_close := ib_close (fst bp);
                    f_pct_chg := snd bp; f_amount := ib_amount (fst bp);
                    f_turnover := 0; f_amplitude := 0 |})
              (combine bars pcts))) =
  filter (fun x : date * float * float => in_window s e (fst (fst x)))
         (map (fun bp : index_bar * float =>
                 (ib_date (fst bp), ib_close (fst bp), snd bp))
              (combine bars pcts)).
Proof.
  revert pcts. induction bars as [|b bars IH]; intros [|v pcts];
    try reflexivity.
  unfold windowed in *. simpl.
  destruct (in_window s e (ib_date b)); simpl; now rewrite IH.
Qed.

Lemma windowed_hist_core (s e : date) (bars : list hist_bar) :
  map core_of_frame (windowed s e (of_hist_bars bars)) =
  map core_of_hist (filter (fun b => in_window s e (hb_date b)) bars).
Proof.
  induction bars as [|b bars IH]; [reflexivity|].
  unfold windowed, of_hist_bars in *. simpl.
  destruct (in_window s e (hb_date b)); simpl; now rewrite IH.
Qed.

Lemma windowed_Forall (P : frame_row -> Prop) (s e : date) (df : list frame_row) :
  Forall P df -> Forall P (windowed s e df).
Proof.
  intros H. apply Forall_forall. intros r Hr. apply filter_In in Hr.
  rewrite Forall_forall in H. now apply H.
Qed.

Lemma clean_zero_columns (symbol nm : string) (s e : date) (df : list frame_row) :
  Forall (fun r => f_turnover r = 0%float /\ f_amplitude r = 0%float) df ->
  Forall (fun r => turnover_rate r = 0%float /\ amplitude r = 0%float)
         (clean symbol nm s e df).
Proof.
  intros H. apply (windowed_Forall _ s e) in H.
  rewrite clean_unfold. apply Forall_forall. intros r Hr.
  apply in_map_iff in Hr. destruct Hr as [[f v] [<- Hin]].
  apply in_combine_l in Hin. rewrite Forall_forall in H.
  exact (H f Hin).
Qed.

Lemma fetch_data_index
    (idx : string -> option (list index_bar))
    (fund equity : string -> date -> date -> option (list hist_bar))
    (symbol nm : string) (s e : date) :
  category_of symbol = Index ->
  fetch_data idx fund equity symbol nm s e =
  match idx symbol with
  | Some bars => clean symbol nm s e (of_index_bars bars)
  | None => []
  end.
Proof.
  intros Hc. unfold fetch_data, load. rewrite Hc.
  now destruct (idx symbol).
Qed.

Lemma fetch_data_fund
    (idx : string -> option (list index_bar))
    (fund equity : string -> date -> date -> option (list hist_bar))
    (symbol nm : string) (s e : date) :
  category_of symbol = Fund ->
  fetch_data idx fund equity symbol nm s e =
  match fund symbol s e with
  | Some bars => clean symbol nm s e (of_hist_bars bars)
  | None => []
  end.
Proof.
  intros Hc. unfold fetch_data, load. rewrite Hc.
  now destruct (fund symbol s e).
Qed.

(** The percent changes of the records of an index. *)
Lemma fetch_data_index_pct
    (idx : string -> option (list index_bar))
    (fund equity : string -> date -> date -> option (list hist_bar))
    (symbol nm : string) (s e : date) (bars : list index_bar) :
  category_of symbol = Index ->
  idx symbol = Some bars ->
  map pct_chg (fetch_data idx fund equity symbol nm s e) =
  map snd (filter (fun dp : date * float => in_window s e (fst dp))
                  (combine (map ib_date bars)
                           (pct_change_100 (map ib_close bars)))).
Proof.
  intros Hcat Hidx.
  rewrite (fetch_data_index idx fund equity symbol nm s e Hcat), Hidx.
  pose proof (clean_core symbol nm s e (of_index_bars bars)) as H.
  apply (f_equal (map (fun c : date * float * float * float * float * float =>
                         snd (fst (fst (fst c)))))) in H.
  rewrite !map_map in H. simpl in H.
  etransitivity; [exact H|].
  unfold of_index_bars. apply windowed_index_pct.
Qed.

(** The date, the close and the percent change of the records of an
    index. *)
Lemma fetch_data_index_rows
    (idx : string -> option (list index_bar))
    (fund equity : string -> date -> date -> option (list hist_bar))
    (symbol nm : string) (s e : date) (bars : list index_bar) :
  category_of symbol = Index ->
  idx symbol = Some bars ->
  map (fun r => (r_date r, close r, pct_chg r))
      (fetch_data idx fund equity symbol nm s e) =
  filter (fun x : date * float * float => in_window s e (fst (fst x)))
         (map (fun bp : index_bar * float =>
                 (ib_date (fst bp), ib_close (fst bp), snd bp))
              (combine bars (pct_change_100 (map ib_close bars)))).
Proof.
  intros Hcat Hidx.
  rewrite (fetch_data_index idx fund equity symbol nm s e Hcat), Hidx.
  pose proof (clean_core symbol nm s e (of_index_bars bars)) as H.
  apply (f_equal (map (fun c : date * float * float * float * float * float =>
                         (fst (fst (fst (fst (fst c)))),
                          snd (fst (fst (fst (fst c)))),
                          snd (fst (fst (fst c))))))) in H.
  rewrite !map_map in H. simpl in H.
  etransitivity; [exact H|].
  unfold of_index_bars. apply windowed_index_rows.
Qed.

Lemma pct_change_100_nth (closes : list float) (i : nat) (p c : float) :
  nth_error closes i = Some p -> is_nan p = false ->
  nth_error closes (S i) = Some c ->
  nth_error (pct_change_100 closes) (S i) = Some (pct_of p c).
Proof.
  intros Hp Hn Hc. unfold pct_change_100.
  rewrite (pct_change_from_nth nan closes (S i) c Hc).
  now rewrite (last_valid_snoc nan closes i p Hp Hn).
Qed.





(** C10: for an index the percent changes are those computed over every
    row the provider sent, filtered afterwards, so when the first row inside
    the window follows a row before the window its percent change is taken
    against that row; the volume ratios are those of the amounts of the rows
    inside the window and of no other row. *)
Theorem pct_chg_before_filter_vol_ratio_after
    (idx : string -> option (list index_bar))
    (fund equity : string -> date -> date -> option (list hist_bar))
    (symbol nm : string) (s e : date) (bars : list index_bar) :
  category_of symbol = Index ->
  idx symbol = Some bars ->
  let batch := fetch_data idx fund equity symbol nm s e in
  map pct_chg batch =
    map snd (filter (fun dp : date * float => in_window s e (fst dp))
                    (combine (map ib_date bars)
                             (pct_change_100 (map ib_close bars)))) /\
  map vol_ratio batch =
    vol_ratios (map ib_amount
                    (filter (fun b => in_window s e (ib_date b)) bars)) /\
  (forall b0 b1 rest,
     bars = b0 :: b1 :: rest ->
     ib_date b0 < s -> s <= ib_date b1 <= e ->
     hd_error (map pct_chg batch) = Some (pct_of (ib_close b0) (ib_close b1))).
Proof.
  intros Hcat Hidx. cbv zeta.
  pose proof (fetch_data_index_pct idx fund equity symbol nm s e bars Hcat Hidx)
    as Hpct.
  split; [exact Hpct|]. split.
  - rewrite (fetch_data_index idx fund equity symbol nm s e Hcat), Hidx.
    rewrite clean_vol_ratio. f_equal. unfold of_index_bars.
    apply windowed_index_amount.
    now rewrite pct_change_100_length, length_map.
  - intros b0 b1 rest -> H0 H1. rewrite Hpct.
    unfold pct_change_100. simpl.
    unfold in_window at 1. simpl.
    destruct (Z.leb_spec s (ib_date b0)); [lia|]. simpl.
    unfold in_window at 1. simpl.
    destruct (Z.leb_spec s (ib_date b1)); [|lia].
    destruct (Z.leb_spec (ib_date b1) e); [|lia].
    simpl. f_equal. f_equal.
    destruct (is_nan (ib_close b0)) eqn:Hn; [|reflexivity].
    symmetry. now apply is_nan_eq.
Qed.

Lemma pct_chg_before_filter_vol_ratio_after_witness :
  map r_date (ex_fetch "sh000001" "SSE Composite" ex_today ex_today) = [ex_today] /\
  hd_error (map pct_chg (ex_fetch "sh000001" "SSE Composite" ex_today ex_today))
  = Some ((110 / 100 - 1) * 100)%float /\
  map vol_ratio (ex_fetch "sh000001" "SSE Composite" ex_today ex_today) = [1%float].
Proof.
  destruct (pct_chg_before_filter_vol_ratio_after ex_index ex_fund ex_equity
              "sh000001" "SSE Composite" ex_today ex_today ex_index_bars
              eq_refl eq_refl) as (_ & Hv & Hfirst).
  split; [reflexivity|]. split.
  - apply (Hfirst _ _ [] eq_refl); vm_compute; [reflexivity | split; discriminate].
  - exact Hv.
Defined.

(** ** The table *)

Lemma key_eqb_eq (k1 k2 : date * string) : key_eqb k1 k2 = true <-> k1 = k2.
Proof.
  destruct k1 as [d1 c1], k2 as [d2 c2]. unfold key_eqb. simpl.
  rewrite andb_true_iff, Z.eqb_eq, String.eqb_eq.
  split; [intros [-> ->]; reflexivity | intros H; injection H; auto].
Qed.

Lemma has_key_In (t : table) (k : date * string) :
  has_key t k = true <-> In k (map key t).
Proof.
  unfold has_key. rewrite existsb_exists, in_map_iff.
  split; intros [r [H1 H2]]; exists r.
  - apply key_eqb_eq in H2. now split.
  - split; [exact H2 | now apply key_eqb_eq].
Qed.

Lemma to_sql_app (t : table) (data : list DailyRecord) (t' : table) :
  to_sql t data = Some t' -> t' = t ++ data.
Proof.
  revert t. induction data as [|r rest IH]; intros t H; simpl in H.
  - injection H as <-. now rewrite app_nil_r.
  - unfold insert_row in H. destruct (has_key t (key r)); [discriminate|].
    apply IH in H. now rewrite <- app_assoc in H.
Qed.

Lemma to_sql_NoDup (t : table) (data : list DailyRecord) (t' : table) :
  NoDup (map key t) -> to_sql t data = Some t' -> NoDup (map key t').
Proof.
  revert t. induction data as [|r rest IH]; intros t Hn H; simpl in H.
  - now injection H as <-.
  - unfold insert_row in H. destruct (has_key t (key r)) eqn:Hk; [discriminate|].
    apply (IH (t ++ [r])); [|exact H].
    rewrite map_app. simpl.
    apply NoDup_app; [exact Hn | constructor; [intros [] | constructor] |].
    intros k Hin [<-|[]]. apply has_key_In in Hin. congruence.
Qed.

Lemma to_sql_conflict (t : table) (data : list DailyRecord) (r : DailyRecord) :
  In r data -> has_key t (key r) = true -> to_sql t data = None.
Proof.
  revert t. induction data as [|x rest IH]; intros t Hin Hk; [destruct Hin|].
  simpl. unfold insert_row. destruct (has_key t (key x)) eqn:Hx; [reflexivity|].
  destruct Hin as [->|Hin]; [congruence|].
  apply IH; [exact Hin|].
  apply has_key_In. rewrite map_app. apply in_or_app. left.
  now apply has_key_In.
Qed.

Lemma to_sql_fresh (t : table) (data : list DailyRecord) :
  NoDup (map key data) ->
  (forall r, In r data -> has_key t (key r) = false) ->
  to_sql t data = Some (t ++ data).
Proof.
  revert t. induction data as [|x rest IH]; intros t Hn Hf; simpl.
  - now rewrite app_nil_r.
  - unfold insert_row. rewrite (Hf x (or_introl eq_refl)).
    simpl in Hn. inversion Hn as [|k ks Hnot Hn']; subst.
    rewrite IH; [now rewrite <- app_assoc | exact Hn' |].
    intros r Hr. destruct (has_key (t ++ [x]) (key r)) eqn:Hk; [|reflexivity].
    apply has_key_In in Hk. rewrite map_app in Hk. apply in_app_or in Hk.
    destruct Hk as [Hk|[Hk|[]]].
    + apply has_key_In in Hk. rewrite (Hf r (or_intror Hr)) in Hk. discriminate.
    + exfalso. apply Hnot. rewrite Hk. now apply in_map.
Qed.

Lemma max_date_Some (nm : string) (t : table) (d : date) :
  max_date nm t = Some d <->
  (exists r, In r t /\ name r = nm /\ r_date r = d) /\
  (forall r, In r t -> name r = nm -> r_date r <= d).
Proof.
  revert d. induction t as [|x t IH]; intros d; simpl.
  - split; [discriminate | intros [[r [[] _]] _]].
  - destruct (String.eqb_spec (name x) nm) as [Hx|Hx].
    + destruct (max_date nm t) as [m|] eqn:Hm.
      * destruct (proj1 (IH m) eq_refl) as [[r [Hr [Hn Hd]]] Hle].
        split.
        -- intros H. injection H as <-. split.
           ++ destruct (Z.max_spec (r_date x) m) as [[_ ->]|[_ ->]].
              ** exists r. auto.
              ** exists x. auto.
           ++ intros r' [<-|Hr'] Hn'; [lia|].
              specialize (Hle r' Hr' Hn'). lia.
        -- intros [[r' [[<-|Hr'] [Hn' Hd']]] Hle'].
           ++ f_equal. specialize (Hle' r (or_intror Hr) Hn). lia.
           ++ f_equal. specialize (Hle r' Hr' Hn').
              pose proof (Hle' r (or_intror Hr) Hn).
              specialize (Hle' x (or_introl eq_refl) Hx). lia.
      * assert (Hnone : forall r, In r t -> name r <> nm).
        { intros r Hr Hn.
          assert (Hex : exists d', max_date nm t = Some d').
          { clear IH Hm. induction t as [|y t IHt]; [destruct Hr|]. simpl.
            destruct (String.eqb_spec (name y) nm).
            - destruct (max_date nm t); eauto.
            - destruct Hr as [->|Hr]; [contradiction | now apply IHt]. }
          destruct Hex as [d' Hd']. congruence. }
        split.
        -- intros H. injection H as <-. split; [exists x; auto|].
           intros r' [<-|Hr'] Hn'; [lia | now destruct (Hnone r' Hr')].
        -- intros [[r' [[<-|Hr'] [Hn' Hd']]] _]; [congruence|].
           now destruct (Hnone r' Hr').
    + rewrite IH. split.
      * intros [[r [Hr [Hn Hd]]] Hle]. split; [exists r; auto|].
        intros r' [<-|Hr'] Hn'; [contradiction | now apply Hle].
      * intros [[r [[<-|Hr] [Hn Hd]]] Hle]; [contradiction|].
        split; [exists r; auto | intros r' Hr'; apply Hle; now right].
Qed.

Lemma max_date_None (nm : string) (t : table) :
  max_date nm t = None <-> (forall r, In r t -> name r <> nm).
Proof.
  induction t as [|x t IH]; simpl.
  - split; [intros _ r [] | reflexivity].
  - destruct (String.eqb_spec (name x) nm) as [Hx|Hx].
    + split.
      * destruct (max_date nm t); discriminate.
      * intros H. now destruct (H x (or_introl eq_refl)).
    + rewrite IH. split.
      * intros H r [<-|Hr]; [exact Hx | now apply H].
      * intros H r Hr. apply H. now right.
Qed.

(** ** One pass of the loop of sync_data *)

Section Sync.

Variable idx : string -> option (list index_bar).
Variables fund equity : string -> date -> date -> option (list hist_bar).
Variable today : date.

Lemma sync_data_pass (symbol nm : string) (rest : list (string * string))
    (conn : table) :
  pass idx fund equity today symbol nm rest conn
       (sync_data idx fund equity today ((symbol, nm) :: rest) conn).
Proof.
  simpl. unfold end_dt.
  destruct (Z.ltb_spec today (start_dt today nm conn)) as [Hlt|Hle].
  - now apply pass_current.
  - destruct (fetch_data idx fund equity symbol nm (start_dt today nm conn) today)
      as [|r data] eqn:Hf.
    + now apply pass_nothing.
    + destruct (to_sql conn (r :: data)) as [conn'|] eqn:Hs.
      * pose proof (pass_stored idx fund equity today symbol nm rest conn conn' Hle) as H.
        rewrite Hf in H. apply H; [discriminate | exact Hs].
      * pose proof (pass_raised idx fund equity today symbol nm rest conn Hle) as H.
        rewrite Hf in H. apply H; [discriminate | exact Hs].
Qed.

Lemma sync_data_grows (target_list : list (string * string)) (conn : table) :
  exists added, conn_after (sync_data idx fund equity today target_list conn) = conn ++ added.
Proof.
  revert conn. induction target_list as [|[symbol nm] rest IH]; intros conn.
  - exists []. simpl. now rewrite app_nil_r.
  - destruct (sync_data_pass symbol nm rest conn) as [_|_ _|conn' _ _ Hs|_ _ _];
      simpl; try apply IH.
    + destruct (IH conn') as [added Ha]. apply to_sql_app in Hs. subst conn'.
      eexists. rewrite Ha, <- app_assoc. reflexivity.
    + exists []. now rewrite app_nil_r.
Qed.

Lemma sync_data_keeps (target_list : list (string * string)) (conn : table)
    (r : DailyRecord) :
  In r conn -> In r (conn_after (sync_data idx fund equity today target_list conn)).
Proof.
  intros H. destruct (sync_data_grows target_list conn) as [added ->].
  apply in_or_app. now left.
Qed.

Lemma sync_data_NoDup (target_list : list (string * string)) (conn : table) :
  NoDup (map key conn) ->
  NoDup (map key (conn_after (sync_data idx fund equity today target_list conn))).
Proof.
  revert conn. induction target_list as [|[symbol nm] rest IH]; intros conn Hn.
  - exact Hn.
  - destruct (sync_data_pass symbol nm rest conn) as [_|_ _|conn' _ _ Hs|_ _ _];
      simpl; try (now apply IH); try exact Hn.
    apply IH. exact (to_sql_NoDup conn _ conn' Hn Hs).
Qed.

End Sync.

(** ** Checkpoint, window and failures *)

Lemma fetch_data_in_window
    (idx : string -> option (list index_bar))
    (fund equity : string -> date -> date -> option (list hist_bar))
    (symbol nm : string) (s e : date) :
  Forall (fun r => s <= r_date r <= e /\ code r = symbol /\ name r = nm)
         (fetch_data idx fund equity symbol nm s e).
Proof.
  unfold fetch_data. destruct (load idx fund equity symbol s e) as [df|];
    [|constructor].
  pose proof (clean_in_window symbol nm s e df) as Hw.
  pose proof (clean_code_name symbol nm s e df) as Hc.
  rewrite Forall_forall in *. intros r Hr. split; [now apply Hw | now apply Hc].
Qed.

Lemma provider_fails_empty
    (idx : string -> option (list index_bar))
    (fund equity : string -> date -> date -> option (list hist_bar))
    (symbol nm : string) (s e : date) :
  provider_fails idx fund equity symbol s e ->
  fetch_data idx fund equity symbol nm s e = [].
Proof.
  unfold provider_fails, fetch_data, load, no_rows.
  destruct (category_of symbol); intros [->| ->]; reflexivity.
Qed.

(** An instrument whose start is not after today is fetched from that
    start to today. *)
Lemma sync_data_fetch
    (idx : string -> option (list index_bar))
    (fund equity : string -> date -> date -> option (list hist_bar))
    (today : date) (symbol nm : string) (rest : list (string * string))
    (conn : table) :
  start_dt today nm conn <= today ->
  sync_data idx fund equity today ((symbol, nm) :: rest) conn =
  fetch_then idx fund equity today symbol nm (start_dt today nm conn) today
             rest conn.
Proof.
  intros Hle. simpl. unfold end_dt, fetch_then.
  destruct (Z.ltb_spec today (start_dt today nm conn)); [lia | reflexivity].
Qed.

Lemma fetch_then_head
    (idx : string -> option (list index_bar))
    (fund equity : string -> date -> date -> option (list hist_bar))
    (today : date) (symbol nm : string) (s e : date)
    (rest : list (string * string)) (conn : table) :
  hd_error (trace (fetch_then idx fund equity today symbol nm s e rest conn))
  = Some (Fetch symbol nm s e).
Proof.
  unfold fetch_then.
  destruct (fetch_data idx fund equity symbol nm s e) as [|r data];
    [reflexivity|].
  now destruct (to_sql conn (r :: data)).
Qed.

Lemma sync_data_current
    (idx : string -> option (list index_bar))
    (fund equity : string -> date -> date -> option (list hist_bar))
    (today : date) (symbol nm : string) (rest : list (string * string))
    (conn : table) :
  today < start_dt today nm conn ->
  sync_data idx fund equity today ((symbol, nm) :: rest) conn =
  then_run [Current nm] (sync_data idx fund equity today rest conn).
Proof.
  intros Hlt. simpl. unfold end_dt.
  apply Z.ltb_lt in Hlt. now rewrite Hlt.
Qed.

(** C3: for an instrument with rows stored under its name, [D] being the
    latest date among them, the run calls [fetch_data] from [D + 1] to
    today when [D + 1] is not after today, and gives the batch of that call
    to the table; when [D + 1] is after today the instrument only reports
    "current": no fetch, no row appended, no exception, and the run goes on
    with the next instrument.  With no row stored under its name the call
    is from 30 days before today to today. *)
Theorem checkpoint_boundaries
    (idx : string -> option (list index_bar))
    (fund equity : string -> date -> date -> option (list hist_bar))
    (today : date) (symbol nm : string) (rest : list (string * string))
    (conn : table) :
  (forall r, In r conn -> name r = nm ->
             (forall r', In r' conn -> name r' = nm -> r_date r' <= r_date r) ->
             start_dt today nm conn = r_date r + 1 /\
             (r_date r + 1 <= today ->
              sync_data idx fund equity today ((symbol, nm) :: rest) conn =
              fetch_then idx fund equity today symbol nm (r_date r + 1) today
                         rest conn /\
              hd_error (trace (sync_data idx fund equity today
                                         ((symbol, nm) :: rest) conn))
              = Some (Fetch symbol nm (r_date r + 1) today)) /\
             (today < r_date r + 1 ->
              sync_data idx fund equity today ((symbol, nm) :: rest) conn =
              then_run [Current nm] (sync_data idx fund equity today rest conn))) /\
  ((forall r, In r conn -> name r <> nm) ->
   start_dt today nm conn = today - 30 /\
   sync_data idx fund equity today ((symbol, nm) :: rest) conn =
   fetch_then idx fund equity today symbol nm (today - 30) today rest conn /\
   hd_error (trace (sync_data idx fund equity today ((symbol, nm) :: rest) conn))
   = Some (Fetch symbol nm (today - 30) today)) /\
  end_dt today = today /\
  (end_dt today < start_dt today nm conn ->
   sync_data idx fund equity today ((symbol, nm) :: rest) conn =
     then_run [Current nm] (sync_data idx fund equity today rest conn) /\
   sync_data idx fund equity today [(symbol, nm)] conn =
     {| conn_after := conn; trace := [Current nm]; raised := false |}).
Proof.
  split; [|split; [|split]].
  - intros r Hr Hn Hmax.
    assert (H : start_dt today nm conn = r_date r + 1).
    { unfold start_dt.
      assert (H : max_date nm conn = Some (r_date r)).
      { apply max_date_Some. split; [exists r; auto | exact Hmax]. }
      now rewrite H. }
    split; [exact H|]. split.
    + intros Hle. rewrite <- H in Hle |- *.
      rewrite (sync_data_fetch idx fund equity today symbol nm rest conn Hle).
      split; [reflexivity | apply fetch_then_head].
    + intros Hlt. rewrite <- H in Hlt. now apply sync_data_current.
  - intros Hnone.
    assert (H : start_dt today nm conn = today - 30).
    { unfold start_dt. now rewrite (proj2 (max_date_None nm conn) Hnone). }
    split; [exact H|].
    assert (Hle : start_dt today nm conn <= today) by lia.
    rewrite (sync_data_fetch idx fund equity today symbol nm rest conn Hle), H.
    split; [reflexivity | apply fetch_then_head].
  - reflexivity.
  - intros Hlt. unfold end_dt in Hlt. split.
    + now apply sync_data_current.
    + now rewrite (sync_data_current idx fund equity today symbol nm [] conn Hlt).
Qed.

Lemma checkpoint_boundaries_witness :
  ex_sync [("513100", "Nasdaq ETF")]%string ex_partial_table =
    {| conn_after :=
         ex_partial_table ++ ex_fetch "513100" "Nasdaq ETF" (day0 + 3) ex_today;
       trace := [Fetch "513100" "Nasdaq ETF" (day0 + 3) ex_today; Stored 3; Sleep 500];
       raised := false |} /\
  map r_date (ex_fetch "513100" "Nasdaq ETF" (day0 + 3) ex_today)
  = [day0 + 3; day0 + 4; day0 + 5] /\
  hd_error (trace (ex_sync [("513100", "Nasdaq ETF")]%string []))
  = Some (Fetch "513100" "Nasdaq ETF" (ex_today - 30) ex_today) /\
  ex_sync [("513100", "Nasdaq ETF")]%string ex_current_table =
    {| conn_after := ex_current_table;
       trace := [Current "Nasdaq ETF"];
       raised := false |}.
Proof.
  destruct (checkpoint_boundaries ex_index ex_fund ex_equity ex_today
              "513100" "Nasdaq ETF" [] ex_partial_table) as (H1 & _).
  destruct (checkpoint_boundaries ex_index ex_fund ex_equity ex_today
              "513100" "Nasdaq ETF" [] []) as (_ & H2 & _).
  destruct (checkpoint_boundaries ex_index ex_fund ex_equity ex_today
              "513100" "Nasdaq ETF" [] ex_current_table) as (_ & _ & _ & H4).
  split; [|split; [|split]].
  - assert (Hmax : forall r', In r' ex_partial_table -> name r' = "Nasdaq ETF"%string ->
                              r_date r' <= day0 + 2)
      by (intros r' [<-|[]] _; simpl; lia).
    destruct (H1 _ (or_introl eq_refl) eq_refl Hmax) as (_ & Hfetch & _).
    destruct Hfetch as [Hrun _]; [vm_compute; discriminate|].
    etransitivity; [exact Hrun|]. reflexivity.
  - reflexivity.
  - apply H2. intros r [].
  - apply H4. vm_compute. reflexivity.
Defined.

(** C5: every record [fetch_data] returns has its date inside the window
    it was asked for, and its volume ratio is computed from the amounts of
    the returned records alone; every record a run adds to the table was
    returned by a fetch of that run for the record's code and name and lies
    inside the window of that fetch. *)
Theorem no_record_outside_window
    (idx : string -> option (list index_bar))
    (fund equity : string -> date -> date -> option (list hist_bar))
    (today : date) (target_list : list (string * string)) (conn : table)
    (r : DailyRecord) :
  In r (conn_after (sync_data idx fund equity today target_list conn)) ->
  (In r conn \/
   exists s e,
     In (Fetch (code r) (name r) s e)
        (trace (sync_data idx fund equity today target_list conn)) /\
     In r (fetch_data idx fund equity (code r) (name r) s e) /\
     s <= r_date r <= e) /\
  (forall symbol nm s e,
     Forall (fun x => s <= r_date x <= e)
            (fetch_data idx fund equity symbol nm s e) /\
     map vol_ratio (fetch_data idx fund equity symbol nm s e) =
     vol_ratios (amounts_of (fetch_data idx fund equity symbol nm s e))).
Proof.
  intros Hin. split.
  - revert conn Hin.
    induction target_list as [|[symbol nm] rest IH]; intros conn Hin.
    + now left.
    + destruct (sync_data_pass idx fund equity today symbol nm rest conn)
        as [_|_ _|conn' _ _ Hs|_ _ _]; simpl in *.
      * destruct (IH conn Hin) as [H|(s & e & H1 & H2)]; [now left|].
        right. exists s, e. split; [now right | exact H2].
      * destruct (IH conn Hin) as [H|(s & e & H1 & H2)]; [now left|].
        right. exists s, e. split; [now right; right | exact H2].
      * destruct (IH conn' Hin) as [H|(s & e & H1 & H2)].
        -- apply to_sql_app in Hs. subst conn'. apply in_app_or in H.
           destruct H as [H|H]; [now left|]. right.
           pose proof (fetch_data_in_window idx fund equity symbol nm
                         (start_dt today nm conn) today) as Hw.
           rewrite Forall_forall in Hw. destruct (Hw r H) as (Hd & Hc & Hn).
           exists (start_dt today nm conn), today. rewrite Hc, Hn.
           split; [now left | split; assumption].
        -- right. exists s, e. split; [now right; right; right | exact H2].
      * now left.
  - intros symbol nm s e. split.
    + pose proof (fetch_data_in_window idx fund equity symbol nm s e) as Hw.
      rewrite Forall_forall in *. intros x Hx. now apply Hw.
    + apply fetch_data_vol_ratio.
Qed.

Lemma no_record_outside_window_witness :
  exists s e,
    In (Fetch "513100" "Nasdaq ETF" s e)
       (trace (ex_sync [("513100", "Nasdaq ETF")]%string [])) /\
    In (hd_error ex_current_table)
       (map Some (ex_fetch "513100" "Nasdaq ETF" s e)) /\
    s <= day0 + 5 <= e.
Proof.
  assert (Hin : In {| r_date := day0 + 5; code := "513100"; name := "Nasdaq ETF";
                      close := 22; pct_chg := 100; amount := 6;
                      turnover_rate := 1.5; amplitude := 1.25;
                      vol_ratio := 3 |}
                   (conn_after (ex_sync [("513100", "Nasdaq ETF")]%string []))).
  { vm_compute. do 4 right. left. reflexivity. }
  destruct (no_record_outside_window ex_index ex_fund ex_equity ex_today
              [("513100", "Nasdaq ETF")]%string [] _ Hin)
    as [[[]|(s & e & H1 & H2 & H3)] _].
  exists s, e. split; [exact H1 | split; [|exact H3]].
  apply in_map_iff. eexists. split; [|exact H2]. reflexivity.
Defined.

(** C4: when the provider raises or has no rows for an instrument,
    [fetch_data] returns the empty batch; in a run such an instrument leaves
    the table as it was and the run goes on: what it does afterwards is what
    it would have done without that instrument, and the rows of a next
    instrument whose batch the table takes are in the table at the end. *)
Theorem failed_fetch_isolated
    (idx : string -> option (list index_bar))
    (fund equity : string -> date -> date -> option (list hist_bar))
    (today : date) (a nm_a b nm_b : string) (rest : list (string * string))
    (conn conn' : table) :
  provider_fails idx fund equity a (start_dt today nm_a conn) today ->
  to_sql conn (fetch_data idx fund equity b nm_b (start_dt today nm_b conn) today)
  = Some conn' ->
  fetch_data idx fund equity a nm_a (start_dt today nm_a conn) today = [] /\
  (exists evs,
     sync_data idx fund equity today ((a, nm_a) :: (b, nm_b) :: rest) conn =
     then_run evs (sync_data idx fund equity today ((b, nm_b) :: rest) conn)) /\
  (forall r,
     In r (fetch_data idx fund equity b nm_b (start_dt today nm_b conn) today) ->
     In r (conn_after
             (sync_data idx fund equity today ((a, nm_a) :: (b, nm_b) :: rest) conn))) /\
  (forall symbol nm s e,
     provider_fails idx fund equity symbol s e ->
     fetch_data idx fund equity symbol nm s e = []).
Proof.
  intros Hfail Hsql.
  pose proof (provider_fails_empty idx fund equity a nm_a _ _ Hfail) as Hempty.
  assert (Hskip : exists evs,
             sync_data idx fund equity today ((a, nm_a) :: (b, nm_b) :: rest) conn =
             then_run evs (sync_data idx fund equity today ((b, nm_b) :: rest) conn)).
  { destruct (sync_data_pass idx fund equity today a nm_a ((b, nm_b) :: rest) conn)
      as [_|_ _|c _ Hne _|_ Hne _]; eauto; contradiction. }
  split; [exact Hempty|]. split; [exact Hskip|]. split.
  - intros r Hr. destruct Hskip as [evs ->].
    change (In r (conn_after
                    (sync_data idx fund equity today ((b, nm_b) :: rest) conn))).
    destruct (sync_data_pass idx fund equity today b nm_b rest conn)
      as [Hlt|_ He|c _ _ Hs|_ _ Hs].
    + pose proof (fetch_data_in_window idx fund equity b nm_b
                    (start_dt today nm_b conn) today) as Hw.
      rewrite Forall_forall in Hw. destruct (Hw r Hr) as [Hd _]. lia.
    + rewrite He in Hr. destruct Hr.
    + change (In r (conn_after (sync_data idx fund equity today rest c))).
      apply sync_data_keeps. apply to_sql_app in Hs. subst c.
      apply in_or_app. now right.
    + congruence.
  - intros symbol nm s e. apply provider_fails_empty.
Qed.

Lemma failed_fetch_isolated_witness :
  ex_fetch "159919" "CSI 300 ETF" (ex_today - 30) ex_today = [] /\
  In (hd_error ex_current_table)
     (map Some
        (conn_after
           (ex_sync [("159919", "CSI 300 ETF"); ("513100", "Nasdaq ETF")]%string []))).
Proof.
  assert (Hsql : to_sql [] (ex_fetch "513100" "Nasdaq ETF" (ex_today - 30) ex_today)
                 = Some (ex_fetch "513100" "Nasdaq ETF" (ex_today - 30) ex_today))
    by (vm_compute; reflexivity).
  destruct (failed_fetch_isolated ex_index ex_fund ex_equity ex_today
              "159919" "CSI 300 ETF" "513100" "Nasdaq ETF" [] [] _
              (or_introl eq_refl) Hsql) as (H1 & _ & H3 & _).
  split; [exact H1|].
  apply in_map_iff. eexists. split; [|apply H3].
  - reflexivity.
  - vm_compute. do 4 right. left. reflexivity.
Defined.

(** C1 (as stated, refuted): the table holds 513100 for one day under an
    older label; the run fetches that day again under the new label, the
    INSERT of the stored pair raises, and the run ends there with the
    exception: the table is unchanged, but the instrument after it is not
    processed. *)
Lemma duplicate_key_aborts_run :
  let targets := [("513100", "Nasdaq ETF"); ("sh000001", "SSE Composite")]%string in
  has_key ex_stale_table (day0 + 5, "513100"%string) = true /\
  In (day0 + 5, "513100"%string)
     (map key (ex_fetch "513100" "Nasdaq ETF" (ex_today - 30) ex_today)) /\
  raised (ex_sync targets ex_stale_table) = true /\
  conn_after (ex_sync targets ex_stale_table) = ex_stale_table /\
  trace (ex_sync targets ex_stale_table)
  = [Fetch "513100" "Nasdaq ETF" (ex_today - 30) ex_today].
Proof.
  cbv zeta. split; [reflexivity|]. split.
  - vm_compute. do 4 right. left. reflexivity.
  - vm_compute. repeat split.
Qed.

(** C1 (amended): a run keeps the pairs (date, code) of the table distinct;
    a batch that holds a pair already stored is refused as a whole by
    [to_sql], so no row is duplicated and no stored value altered, and a
    batch that is taken is appended as it is and held no stored pair; but
    the refusal is an exception that [sync_data] does not catch: the run
    ends at that instrument with the table as it was before the batch. *)
Theorem primary_key_rejects_duplicates
    (idx : string -> option (list index_bar))
    (fund equity : string -> date -> date -> option (list hist_bar))
    (today : date) :
  (forall target_list conn,
     NoDup (map key conn) ->
     NoDup (map key (conn_after (sync_data idx fund equity today target_list conn)))) /\
  (forall t data r,
     In r data -> has_key t (key r) = true -> to_sql t data = None) /\
  (forall t data t',
     to_sql t data = Some t' ->
     t' = t ++ data /\ forall r, In r data -> has_key t (key r) = false) /\
  (forall symbol nm rest conn r,
     start_dt today nm conn <= end_dt today ->
     In r (fetch_data idx fund equity symbol nm (start_dt today nm conn) (end_dt today)) ->
     has_key conn (key r) = true ->
     sync_data idx fund equity today ((symbol, nm) :: rest) conn =
     {| conn_after := conn;
        trace := [Fetch symbol nm (start_dt today nm conn) (end_dt today)];
        raised := true |}).
Proof.
  split; [|split; [|split]].
  - intros target_list conn. apply sync_data_NoDup.
  - exact to_sql_conflict.
  - intros t data t' H. split; [now apply to_sql_app|].
    intros r Hr. destruct (has_key t (key r)) eqn:Hk; [|reflexivity].
    rewrite (to_sql_conflict t data r Hr Hk) in H. discriminate.
  - unfold end_dt. intros symbol nm rest conn r Hle Hr Hk.
    pose proof (to_sql_conflict conn _ r Hr Hk) as Hnone.
    destruct (sync_data_pass idx fund equity today symbol nm rest conn)
      as [Hlt|_ He|c _ _ Hs|_ _ _].
    + lia.
    + rewrite He in Hr. destruct Hr.
    + congruence.
    + reflexivity.
Qed.

(** ** Pacing *)

Lemma elapsed_nonneg (dur : event -> Z) (evs : list event) :
  (forall ev, 0 <= dur ev) -> 0 <= elapsed dur evs.
Proof.
  intros Hd. induction evs as [|ev evs IH]; simpl; [lia|].
  specialize (Hd ev). lia.
Qed.

Lemma elapsed_member (dur : event -> Z) (evs : list event) (ev : event) :
  (forall x, 0 <= dur x) -> In ev evs -> dur ev <= elapsed dur evs.
Proof.
  intros Hd. induction evs as [|x evs IH]; intros Hin; [destruct Hin|].
  simpl. destruct Hin as [->|Hin].
  - pose proof (elapsed_nonneg dur evs Hd). lia.
  - specialize (IH Hin). specialize (Hd x). lia.
Qed.

(** C9: in the events of a run, between a call of [fetch_data] and the
    next one there is a [time.sleep] of at least 0.5 s; so, whatever time
    the events take, a sleep taking at least the time asked for, at least
    500 ms pass between the end of the one call and the start of the next
    one. *)
Theorem pacing_between_fetches
    (idx : string -> option (list index_bar))
    (fund equity : string -> date -> date -> option (list hist_bar))
    (today : date) (target_list : list (string * string)) (conn : table)
    (dur : event -> Z) (pre mid post : list event)
    (a nm_a b nm_b : string) (s_a e_a s_b e_b : date) :
  (forall ev, 0 <= dur ev) ->
  (forall ms, ms <= dur (Sleep ms)) ->
  trace (sync_data idx fund equity today target_list conn) =
    pre ++ Fetch a nm_a s_a e_a :: mid ++ Fetch b nm_b s_b e_b :: post ->
  In (Sleep 500) mid /\ 500 <= elapsed dur mid.
Proof.
  intros Hdur Hsleep Htrace.
  assert (Hin : In (Sleep 500) mid).
  { revert conn pre Htrace.
    induction target_list as [|[symbol nm] rest IH]; intros conn pre Htrace.
    - destruct pre; discriminate Htrace.
    - destruct (sync_data_pass idx fund equity today symbol nm rest conn)
        as [_|_ _|conn' _ _ _|_ _ _]; simpl in Htrace.
      + destruct pre as [|x pre]; [discriminate Htrace|].
        injection Htrace as _ Htrace. now apply (IH conn pre).
      + destruct pre as [|x pre].
        * injection Htrace as _ _ _ _ Htrace.
          destruct mid as [|y mid]; [discriminate Htrace|].
          injection Htrace as <- _. now left.
        * injection Htrace as _ Htrace.
          destruct pre as [|x' pre]; [discriminate Htrace|].
          injection Htrace as _ Htrace. now apply (IH conn pre).
      + destruct pre as [|x pre].
        * injection Htrace as _ _ _ _ Htrace.
          destruct mid as [|y mid]; [discriminate Htrace|].
          injection Htrace as <- Htrace.
          destruct mid as [|y' mid]; [discriminate Htrace|].
          injection Htrace as <- _. now right; left.
        * injection Htrace as _ Htrace.
          destruct pre as [|x' pre]; [discriminate Htrace|].
          injection Htrace as _ Htrace.
          destruct pre as [|x'' pre]; [discriminate Htrace|].
          injection Htrace as _ Htrace. now apply (IH conn' pre).
      + destruct pre as [|x pre].
        * injection Htrace as _ _ _ _ Htrace. destruct mid; discriminate Htrace.
        * injection Htrace as _ Htrace. destruct pre; discriminate Htrace. }
  split; [exact Hin|].
  pose proof (elapsed_member dur mid (Sleep 500) Hdur Hin).
  specialize (Hsleep 500). lia.
Qed.

Lemma pacing_between_fetches_witness :
  trace (ex_sync [("159919", "CSI 300 ETF"); ("513100", "Nasdaq ETF")]%string [])
  = [] ++ Fetch "159919" "CSI 300 ETF" (ex_today - 30) ex_today
       :: [Sleep 500]
       ++ Fetch "513100" "Nasdaq ETF" (ex_today - 30) ex_today
       :: [Stored 5; Sleep 500] /\
  500 <= elapsed ex_dur [Sleep 500].
Proof.
  split; [vm_compute; reflexivity|].
  refine (proj2 (pacing_between_fetches ex_index ex_fund ex_equity ex_today
                   [("159919", "CSI 300 ETF"); ("513100", "Nasdaq ETF")]%string []
                   ex_dur [] [Sleep 500] [Stored 5; Sleep 500]
                   "159919" "CSI 300 ETF" "513100" "Nasdaq ETF"
                   (ex_today - 30) ex_today (ex_today - 30) ex_today _ _ _)).
  - intros [ | | |ms]; simpl; lia.
  - intros ms. simpl. lia.
  - vm_compute. reflexivity.
Defined.

(** ** A second run *)

Lemma clean_date_iff (symbol nm : string) (s e : date) (df : list frame_row)
    (d : date) :
  (exists r, In r (clean symbol nm s e df) /\ r_date r = d) <->
  (exists f, In f df /\ f_date f = d) /\ s <= d <= e.
Proof.
  assert (Hd : (exists r, In r (clean symbol nm s e df) /\ r_date r = d) <->
               In d (map f_date (windowed s e df))).
  { rewrite <- (clean_dates symbol nm), in_map_iff.
    split; intros [r [H1 H2]]; exists r; tauto. }
  rewrite Hd, in_map_iff. unfold windowed. split.
  - intros [f [Hf Hin]]. apply filter_In in Hin. destruct Hin as [Hin Hw].
    unfold in_window in Hw. apply andb_true_iff in Hw.
    split; [exists f; tauto | lia].
  - intros [[f [Hin Hf]] Hw]. exists f. split; [exact Hf|].
    apply filter_In. split; [exact Hin|].
    unfold in_window. apply andb_true_iff. lia.
Qed.

Lemma of_hist_bars_date (bars : list hist_bar) (d : date) :
  (exists f, In f (of_hist_bars bars) /\ f_date f = d) <->
  (exists b, In b bars /\ hb_date b = d).
Proof.
  unfold of_hist_bars. split.
  - intros [f [Hin Hf]]. apply in_map_iff in Hin. destruct Hin as [b [<- Hb]].
    exists b. now split.
  - intros [b [Hb Hd]]. eexists. split; [apply in_map; exact Hb | exact Hd].
Qed.

Lemma idle_run
    (idx : string -> option (list index_bar))
    (fund equity : string -> date -> date -> option (list hist_bar))
    (today : date) (target_list : list (string * string)) (t : table) :
  (forall symbol nm, In (symbol, nm) target_list ->
     start_dt today nm t <= today ->
     fetch_data idx fund equity symbol nm (start_dt today nm t) today = []) ->
  conn_after (sync_data idx fund equity today target_list t) = t /\
  raised (sync_data idx fund equity today target_list t) = false /\
  rows_stored (trace (sync_data idx fund equity today target_list t)) = 0%nat.
Proof.
  induction target_list as [|[symbol nm] rest IH]; intros Hidle.
  - repeat split.
  - assert (Hrest : conn_after (sync_data idx fund equity today rest t) = t /\
                    raised (sync_data idx fund equity today rest t) = false /\
                    rows_stored (trace (sync_data idx fund equity today rest t)) = 0%nat).
    { apply IH. intros s n Hin. apply Hidle. now right. }
    specialize (Hidle symbol nm (or_introl eq_refl)).
    destruct (sync_data_pass idx fund equity today symbol nm rest t)
      as [_|_ _|conn' Hle Hne _|Hle Hne _]; simpl;
      try exact Hrest; now destruct (Hne (Hidle Hle)).
Qed.

Lemma rows_stored_app (evs evs' : list event) :
  rows_stored (evs ++ evs') = (rows_stored evs + rows_stored evs')%nat.
Proof.
  induction evs as [|ev evs IH]; [reflexivity|].
  destruct ev; simpl; rewrite IH; lia.
Qed.

Lemma then_run_app (evs evs' : list event) (r : run) :
  then_run evs (then_run evs' r) = then_run (evs ++ evs') r.
Proof.
  unfold then_run. simpl. now rewrite app_assoc.
Qed.

Lemma sync_data_step
    (idx : string -> option (list index_bar))
    (fund equity : string -> date -> date -> option (list hist_bar))
    (today : date) (symbol nm : string) (rest : list (string * string))
    (conn : table) :
  sync_data idx fund equity today ((symbol, nm) :: rest) conn =
  match one_pass idx fund equity today symbol nm conn with
  | Goes evs conn' => then_run evs (sync_data idx fund equity today rest conn')
  | Stops evs => {| conn_after := conn; trace := evs; raised := true |}
  end.
Proof.
  simpl. unfold one_pass.
  destruct (end_dt today <? start_dt today nm conn); [reflexivity|].
  destruct (fetch_data idx fund equity symbol nm (start_dt today nm conn)
              (end_dt today)) as [|r data]; [reflexivity|].
  now destruct (to_sql conn (r :: data)).
Qed.

Lemma one_pass_Stops
    (idx : string -> option (list index_bar))
    (fund equity : string -> date -> date -> option (list hist_bar))
    (today : date) (symbol nm : string) (conn : table) (evs : list event) :
  one_pass idx fund equity today symbol nm conn = Stops evs ->
  rows_stored evs = 0%nat.
Proof.
  unfold one_pass.
  destruct (end_dt today <? start_dt today nm conn); [discriminate|].
  destruct (fetch_data idx fund equity symbol nm (start_dt today nm conn)
              (end_dt today)) as [|r data]; [discriminate|].
  destruct (to_sql conn (r :: data)); [discriminate|].
  intros H. injection H as <-. reflexivity.
Qed.

(** A run over a list is the run over its first part, when that one
    comes to its end, followed by the run over the rest. *)
Lemma sync_data_app
    (idx : string -> option (list index_bar))
    (fund equity : string -> date -> date -> option (list hist_bar))
    (today : date) (l1 l2 : list (string * string)) (conn : table) :
  raised (sync_data idx fund equity today l1 conn) = false ->
  sync_data idx fund equity today (l1 ++ l2) conn =
  then_run (trace (sync_data idx fund equity today l1 conn))
           (sync_data idx fund equity today l2
              (conn_after (sync_data idx fund equity today l1 conn))).
Proof.
  revert conn. induction l1 as [|[symbol nm] rest IH]; intros conn Hok.
  - simpl. now destruct (sync_data idx fund equity today l2 conn).
  - change (((symbol, nm) :: rest) ++ l2) with ((symbol, nm) :: rest ++ l2).
    rewrite sync_data_step in Hok. rewrite !sync_data_step.
    destruct (one_pass idx fund equity today symbol nm conn) as [evs conn'|evs];
      [|discriminate Hok].
    rewrite (IH conn' Hok). apply then_run_app.
Qed.

(** A run that raises does so at one instrument, after a run over the
    instruments before it that came to its end. *)
Lemma sync_data_raised
    (idx : string -> option (list index_bar))
    (fund equity : string -> date -> date -> option (list hist_bar))
    (today : date) (target_list : list (string * string)) (conn : table) :
  raised (sync_data idx fund equity today target_list conn) = true ->
  exists l1 symbol nm l2 evs,
    target_list = l1 ++ (symbol, nm) :: l2 /\
    raised (sync_data idx fund equity today l1 conn) = false /\
    conn_after (sync_data idx fund equity today target_list conn) =
      conn_after (sync_data idx fund equity today l1 conn) /\
    one_pass idx fund equity today symbol nm
      (conn_after (sync_data idx fund equity today l1 conn)) = Stops evs.
Proof.
  revert conn. induction target_list as [|[symbol nm] rest IH]; intros conn Hr;
    [discriminate Hr|].
  rewrite sync_data_step in Hr.
  destruct (one_pass idx fund equity today symbol nm conn) as [evs conn'|evs] eqn:Hp.
  - destruct (IH conn' Hr) as (l1 & s & n & l2 & evs' & -> & Hok & Hc & Hstop).
    exists ((symbol, nm) :: l1), s, n, l2, evs'.
    rewrite !sync_data_step, Hp. simpl. repeat split; assumption.
  - exists [], symbol, nm, rest, evs. rewrite sync_data_step, Hp.
    repeat split. exact Hp.
Qed.

Section SecondRun.

Variable idx : string -> option (list index_bar).
Variables fund equity : string -> date -> date -> option (list hist_bar).

(** The day of the first run and the day of the second. *)
Variables today today' : date.

Hypothesis later : today <= today'.
Hypothesis fund_stable : range_stable fund.
Hypothesis equity_stable : range_stable equity.

(** Nothing the second run can fetch is dated after the first run (when
    both runs are on one day the window of the fetch says so). *)
Hypothesis no_new_data :
  forall symbol nm s r,
    In r (fetch_data idx fund equity symbol nm s today') -> r_date r <= today.

(** A day fetched for one window is fetched for every window holding it. *)
Lemma fetch_data_stable (symbol nm : string) (s e s' e' : date) (r : DailyRecord) :
  In r (fetch_data idx fund equity symbol nm s e) -> s' <= r_date r <= e' ->
  exists r', In r' (fetch_data idx fund equity symbol nm s' e') /\
             r_date r' = r_date r.
Proof.
  unfold fetch_data, load. intros Hin Hw.
  assert (Hhist : forall api, range_stable api ->
            forall bars, api symbol s e = Some bars ->
            In r (clean symbol nm s e (of_hist_bars bars)) ->
            exists r',
              In r' match option_map of_hist_bars (api symbol s' e') with
                    | Some df => clean symbol nm s' e' df
                    | None => []
                    end /\ r_date r' = r_date r).
  { intros api Hst bars Hb Hr.
    destruct (proj1 (clean_date_iff symbol nm s e (of_hist_bars bars) (r_date r))
                (ex_intro _ r (conj Hr eq_refl))) as [Hf Hse].
    apply of_hist_bars_date in Hf. destruct Hf as [b [Hbin Hbd]].
    rewrite <- Hbd in Hse, Hw.
    destruct (Hst symbol s e s' e' bars b Hb Hbin Hse Hw)
      as (bars' & b' & Hb' & Hin' & Hd').
    rewrite Hb'. simpl. rewrite <- Hbd, <- Hd'.
    apply clean_date_iff. split; [|now rewrite Hd'].
    apply of_hist_bars_date. now exists b'. }
  destruct (category_of symbol).
  - destruct (idx symbol) as [bars|]; [|destruct Hin]. simpl in *.
    apply clean_date_iff.
    destruct (proj1 (clean_date_iff symbol nm s e (of_index_bars bars) (r_date r))
                (ex_intro _ r (conj Hin eq_refl))) as [Hf _].
    now split.
  - destruct (fund symbol s e) as [bars|] eqn:Hb; [|destruct Hin].
    exact (Hhist fund fund_stable bars Hb Hin).
  - destruct (equity symbol s e) as [bars|] eqn:Hb; [|destruct Hin].
    exact (Hhist equity equity_stable bars Hb Hin).
Qed.

Lemma recent_start_dt (now : date) (nm : string) (t : table) :
  today <= now -> recent today nm t -> today - 30 <= start_dt now nm t.
Proof.
  intros Hnow Hrec. unfold start_dt.
  destruct (max_date nm t) as [d|] eqn:Hm; [|lia].
  apply max_date_Some in Hm. destruct Hm as [[r [Hr [Hn Hd]]] _].
  specialize (Hrec r Hr Hn). lia.
Qed.

Lemma sync_data_recent (nm : string) (target_list : list (string * string))
    (conn : table) :
  recent today nm conn ->
  recent today nm (conn_after (sync_data idx fund equity today target_list conn)).
Proof.
  revert conn. induction target_list as [|[symbol nm'] rest IH]; intros conn Hrec.
  - exact Hrec.
  - destruct (sync_data_pass idx fund equity today symbol nm' rest conn)
      as [_|_ _|conn' _ _ Hs|_ _ _]; simpl; try (now apply IH); try exact Hrec.
    apply IH. apply to_sql_app in Hs. subst conn'.
    intros r Hr Hn. apply in_app_or in Hr. destruct Hr as [Hr|Hr];
      [now apply Hrec|].
    pose proof (fetch_data_in_window idx fund equity symbol nm'
                  (start_dt today nm' conn) today) as Hw.
    rewrite Forall_forall in Hw. destruct (Hw r Hr) as (Hd & _ & Hn').
    assert (Heq : nm' = nm) by congruence. rewrite Heq in Hd.
    pose proof (recent_start_dt today nm conn (Z.le_refl _) Hrec). lia.
Qed.

(** The start boundary of the second run is not before that of the first. *)
Lemma sync_data_start_dt (nm : string) (target_list : list (string * string))
    (conn : table) :
  start_dt today nm conn <=
  start_dt today' nm (conn_after (sync_data idx fund equity today target_list conn)).
Proof.
  unfold start_dt at 1. destruct (max_date nm conn) as [d|] eqn:Hm.
  - apply max_date_Some in Hm. destruct Hm as [[r [Hr [Hn Hd]]] _].
    unfold start_dt.
    destruct (max_date nm (conn_after (sync_data idx fund equity today target_list conn)))
      as [d'|] eqn:Hm'.
    + apply max_date_Some in Hm'. destruct Hm' as [_ Hle].
      specialize (Hle r (sync_data_keeps idx fund equity today target_list conn r Hr) Hn).
      lia.
    + rewrite max_date_None in Hm'.
      now destruct (Hm' r (sync_data_keeps idx fund equity today target_list conn r Hr)).
  - apply recent_start_dt; [exact later|]. apply sync_data_recent.
    rewrite max_date_None in Hm. intros r Hr Hn. now destruct (Hm r Hr).
Qed.

(** After a run that did not raise, no instrument of the list has
    anything left to fetch. *)
Lemma nothing_left (target_list : list (string * string)) (conn : table)
    (symbol nm : string) :
  raised (sync_data idx fund equity today target_list conn) = false ->
  In (symbol, nm) target_list ->
  fetch_data idx fund equity symbol nm
    (start_dt today' nm (conn_after (sync_data idx fund equity today target_list conn)))
    today' = [].
Proof.
  revert conn. induction target_list as [|[symbol' nm'] rest IH];
    intros conn Hok Hin; [destruct Hin|].
  destruct Hin as [Heq|Hin].
  - injection Heq as -> ->.
    pose proof (sync_data_start_dt nm ((symbol, nm) :: rest) conn) as Hmono.
    set (T := conn_after (sync_data idx fund equity today ((symbol, nm) :: rest) conn))
      in *.
    assert (Hsub : forall r,
               In r (fetch_data idx fund equity symbol nm (start_dt today nm conn) today) ->
               In r T).
    { intros r Hr. unfold T. clear Hmono T. revert Hok.
      destruct (sync_data_pass idx fund equity today symbol nm rest conn)
        as [Hlt|_ He|conn' _ _ Hs|_ _ _]; intros Hok.
      - pose proof (fetch_data_in_window idx fund equity symbol nm
                      (start_dt today nm conn) today) as Hw.
        rewrite Forall_forall in Hw. destruct (Hw r Hr) as [Hd _]. lia.
      - rewrite He in Hr. destruct Hr.
      - change (In r (conn_after (sync_data idx fund equity today rest conn'))).
        apply sync_data_keeps. apply to_sql_app in Hs. subst conn'.
        apply in_or_app. now right.
      - discriminate Hok. }
    destruct (fetch_data idx fund equity symbol nm (start_dt today' nm T) today')
      as [|r batch] eqn:Hf; [reflexivity|exfalso].
    assert (Hr : In r (fetch_data idx fund equity symbol nm (start_dt today' nm T) today'))
      by (rewrite Hf; now left).
    pose proof (fetch_data_in_window idx fund equity symbol nm
                  (start_dt today' nm T) today') as Hw.
    rewrite Forall_forall in Hw. destruct (Hw r Hr) as [Hd _].
    pose proof (no_new_data symbol nm _ r Hr) as Hold.
    destruct (fetch_data_stable symbol nm _ _ (start_dt today nm conn) today r Hr)
      as (r' & Hr' & Hd'); [lia|].
    pose proof (fetch_data_in_window idx fund equity symbol nm
                  (start_dt today nm conn) today) as Hw'.
    rewrite Forall_forall in Hw'. destruct (Hw' r' Hr') as (_ & _ & Hn').
    apply Hsub in Hr'. unfold start_dt in Hd at 1.
    destruct (max_date nm T) as [d|] eqn:Hm.
    + apply max_date_Some in Hm. destruct Hm as [_ Hmax].
      specialize (Hmax r' Hr' Hn'). lia.
    + rewrite max_date_None in Hm. now destruct (Hm r' Hr').
  - revert Hok.
    destruct (sync_data_pass idx fund equity today symbol' nm' rest conn)
      as [_|_ _|conn' _ _ _|_ _ _]; simpl; intros Hok;
      try (now apply IH); discriminate Hok.
Qed.


End SecondRun.

Lemma ex_fund_stable : range_stable ex_fund.
Proof.
  intros symbol s e s' e' bars b Hb Hin _ _.
  exists bars, b. unfold ex_fund in *. now repeat split.
Qed.

Lemma ex_equity_stable : range_stable ex_equity.
Proof.
  intros symbol s e s' e' bars b Hb. discriminate Hb.
Qed.

Lemma ex_no_new_data (symbol nm : string) (s : date) (r : DailyRecord) :
  In r (ex_fetch symbol nm s (ex_today + 1)) -> r_date r <= ex_today.
Proof.
  unfold ex_fetch, fetch_data, load. intros Hin.
  assert (Hdate : forall df,
            In r (clean symbol nm s (ex_today + 1) df) ->
            exists f, In f df /\ f_date f = r_date r).
  { intros df H.
    exact (proj1 (proj1 (clean_date_iff symbol nm s (ex_today + 1) df (r_date r))
                    (ex_intro _ r (conj H eq_refl)))). }
  destruct (category_of symbol).
  - unfold ex_index in Hin. destruct (String.eqb symbol "sh000001");
      [|destruct Hin].
    destruct (Hdate _ Hin) as [f [Hf <-]]. simpl in Hf.
    destruct Hf as [<-|[<-|[]]]; vm_compute; discriminate.
  - unfold ex_fund in Hin. destruct (String.eqb symbol "513100").
    + destruct (Hdate _ Hin) as [f [Hf <-]]. simpl in Hf.
      destruct Hf as [<-|[<-|[<-|[<-|[<-|[]]]]]]; vm_compute; discriminate.
    + destruct (String.eqb symbol "159919"); destruct Hin.
  - destruct Hin.
Qed.


(** * Further properties of the collector and of the viewer's reader *)

(** ** The table *)

Lemma to_sql_distinct (t : table) (data : list DailyRecord) (t' : table) :
  to_sql t data = Some t' -> NoDup (map key data).
Proof.
  revert t. induction data as [|r rest IH]; intros t H; simpl in *.
  - constructor.
  - unfold insert_row in H. destruct (has_key t (key r)) eqn:Hk; [discriminate|].
    constructor; [|now apply (IH (t ++ [r]))].
    intros Hin. apply in_map_iff in Hin. destruct Hin as [x [Hx Hin]].
    rewrite (to_sql_conflict (t ++ [r]) rest x Hin) in H; [discriminate|].
    apply has_key_In. rewrite map_app, Hx. apply in_or_app. right. now left.
Qed.

(** X1: A batch is taken exactly when its pairs (date, code) are distinct and
    none of them is stored; it is then appended as it is, and otherwise
    nothing of it is stored. *)
Theorem to_sql_accepts_iff (t : table) (data : list DailyRecord) :
  (to_sql t data = Some (t ++ data) <->
   NoDup (map key data) /\ forall r, In r data -> has_key t (key r) = false) /\
  (to_sql t data = None \/ to_sql t data = Some (t ++ data)).
Proof.
  split.
  - split.
    + intros H. split; [exact (to_sql_distinct t data _ H)|].
      intros r Hr. destruct (has_key t (key r)) eqn:Hk; [|reflexivity].
      rewrite (to_sql_conflict t data r Hr Hk) in H. discriminate.
    + intros [Hn Hf]. now apply to_sql_fresh.
  - destruct (to_sql t data) as [t'|] eqn:H; [right | now left].
    now rewrite (to_sql_app t data t' H).
Qed.

(** ** What a run adds *)

Lemma start_dt_after (today : date) (nm : string) (conn : table) (r : DailyRecord) :
  In r conn -> name r = nm -> r_date r < start_dt today nm conn.
Proof.
  intros Hr Hn. unfold start_dt. destruct (max_date nm conn) as [d|] eqn:Hm.
  - apply max_date_Some in Hm. destruct Hm as [_ Hle].
    specialize (Hle r Hr Hn). lia.
  - rewrite max_date_None in Hm. now destruct (Hm r Hr).
Qed.

(** X2: A run only appends: the table it leaves starts with the table it
    found, and every row after that belongs to an instrument of the list, is
    dated no later than today, and is dated after every row that the table
    held under its name. *)
Theorem sync_data_appends_forward
    (idx : string -> option (list index_bar))
    (fund equity : string -> date -> date -> option (list hist_bar))
    (today : date) (target_list : list (string * string)) (conn : table) :
  exists added,
    conn_after (sync_data idx fund equity today target_list conn) = conn ++ added /\
    forall r, In r added ->
      In (code r, name r) target_list /\
      r_date r <= today /\
      forall r', In r' conn -> name r' = name r -> r_date r' < r_date r.
Proof.
  revert conn. induction target_list as [|[symbol nm] rest IH]; intros conn.
  - exists []. split; [simpl; now rewrite app_nil_r | intros r []].
  - destruct (sync_data_pass idx fund equity today symbol nm rest conn)
      as [_|_ _|conn' _ _ Hs|_ _ _]; simpl conn_after.
    + destruct (IH conn) as (added & Ha & Hp). exists added.
      split; [exact Ha|]. intros r Hr. destruct (Hp r Hr) as (H1 & H2).
      split; [now right | exact H2].
    + destruct (IH conn) as (added & Ha & Hp). exists added.
      split; [exact Ha|]. intros r Hr. destruct (Hp r Hr) as (H1 & H2).
      split; [now right | exact H2].
    + destruct (IH conn') as (added & Ha & Hp).
      apply to_sql_app in Hs. subst conn'.
      exists (fetch_data idx fund equity symbol nm (start_dt today nm conn) today
              ++ added).
      split; [now rewrite Ha, app_assoc|].
      intros r Hr. apply in_app_or in Hr. destruct Hr as [Hr|Hr].
      * pose proof (fetch_data_in_window idx fund equity symbol nm
                      (start_dt today nm conn) today) as Hw.
        rewrite Forall_forall in Hw. destruct (Hw r Hr) as (Hd & Hc & Hn).
        rewrite Hc, Hn. split; [now left|]. split; [lia|].
        intros r' Hr' Hn'. pose proof (start_dt_after today nm conn r' Hr' Hn'). lia.
      * destruct (Hp r Hr) as (H1 & H2 & H3).
        split; [now right|]. split; [exact H2|].
        intros r' Hr'. apply H3. apply in_or_app. now left.
    + exists []. split; [now rewrite app_nil_r | intros r []].
Qed.

(** X3: The rows a run reports as stored are the rows it added, also when the
    run ends in an exception. *)
Theorem rows_stored_are_the_rows_added
    (idx : string -> option (list index_bar))
    (fund equity : string -> date -> date -> option (list hist_bar))
    (today : date) (target_list : list (string * string)) (conn : table) :
  List.length (conn_after (sync_data idx fund equity today target_list conn)) =
  (List.length conn
   + rows_stored (trace (sync_data idx fund equity today target_list conn)))%nat.
Proof.
  revert conn. induction target_list as [|[symbol nm] rest IH]; intros conn.
  - simpl. lia.
  - destruct (sync_data_pass idx fund equity today symbol nm rest conn)
      as [_|_ _|conn' _ _ Hs|_ _ _]; simpl; try apply IH; try lia.
    rewrite IH. apply to_sql_app in Hs. subst conn'. rewrite length_app. lia.
Qed.

(** X4: The trace of a run is made of one stretch of events per instrument,
    in the order of the list: the report that the instrument is current, or
    its fetch followed at once by the count of the stored rows, if any, and
    then by one pause of half a second.  A run that raises ends with the
    fetch of the instrument it raised at, which no pause follows, after the
    stretches of the instruments before it.  So a run that comes to its end
    handles every instrument exactly once and pauses once after every
    fetch. *)
Theorem one_event_per_instrument
    (idx : string -> option (list index_bar))
    (fund equity : string -> date -> date -> option (list hist_bar))
    (today : date) (target_list : list (string * string)) (conn : table) :
  let run := sync_data idx fund equity today target_list conn in
  (raised run = false ->
   exists stretches,
     trace run = List.concat stretches /\
     Forall2 (fun target evs => handled (fst target) (snd target) evs)
             target_list stretches) /\
  (raised run = true ->
   exists before symbol nm after stretches s e,
     target_list = before ++ (symbol, nm) :: after /\
     trace run = List.concat stretches ++ [Fetch symbol nm s e] /\
     Forall2 (fun target evs => handled (fst target) (snd target) evs)
             before stretches) /\
  (fetches (trace run) + currents (trace run) <= List.length target_list)%nat /\
  (raised run = false ->
   (fetches (trace run) + currents (trace run))%nat = List.length target_list /\
   sleeps (trace run) = fetches (trace run)) /\
  (raised run = true -> S (sleeps (trace run)) = fetches (trace run)).
Proof.
  cbv zeta. split; [|split].
  - revert conn.
    induction target_list as [|[symbol nm] rest IH]; intros conn Hok.
    + exists []. split; [reflexivity | constructor].
    + destruct (sync_data_pass idx fund equity today symbol nm rest conn)
        as [_|_ _|conn' _ _ _|_ _ _]; simpl in Hok |- *.
      * destruct (IH conn Hok) as (stretches & Ht & Hf).
        exists ([Current nm] :: stretches). simpl. rewrite Ht.
        split; [reflexivity|]. constructor; [constructor | exact Hf].
      * destruct (IH conn Hok) as (stretches & Ht & Hf).
        exists ([Fetch symbol nm (start_dt today nm conn) today; Sleep 500] :: stretches).
        simpl. rewrite Ht.
        split; [reflexivity|]. constructor; [apply handled_empty | exact Hf].
      * destruct (IH conn' Hok) as (stretches & Ht & Hf).
        exists ([Fetch symbol nm (start_dt today nm conn) today;
                 Stored (List.length
                           (fetch_data idx fund equity symbol nm
                                       (start_dt today nm conn) today));
                 Sleep 500] :: stretches).
        simpl. rewrite Ht.
        split; [reflexivity|]. constructor; [apply handled_stored | exact Hf].
      * discriminate Hok.
  - revert conn.
    induction target_list as [|[symbol nm] rest IH]; intros conn Hr;
      [discriminate Hr|].
    destruct (sync_data_pass idx fund equity today symbol nm rest conn)
      as [_|_ _|conn' _ _ _|_ _ _]; simpl in Hr |- *.
    + destruct (IH conn Hr) as (before & sy & n & after & stretches & s & e
                                & -> & Ht & Hf).
      exists ((symbol, nm) :: before), sy, n, after,
             ([Current nm] :: stretches), s, e.
      simpl. rewrite Ht.
      split; [reflexivity|]. split; [reflexivity|].
      constructor; [constructor | exact Hf].
    + destruct (IH conn Hr) as (before & sy & n & after & stretches & s & e
                                & -> & Ht & Hf).
      exists ((symbol, nm) :: before), sy, n, after.
      exists ([Fetch symbol nm (start_dt today nm conn) today; Sleep 500] :: stretches), s, e.
      simpl. rewrite Ht.
      split; [reflexivity|]. split; [reflexivity|].
      constructor; [apply handled_empty | exact Hf].
    + destruct (IH conn' Hr) as (before & sy & n & after & stretches & s & e
                                 & -> & Ht & Hf).
      exists ((symbol, nm) :: before), sy, n, after.
      exists ([Fetch symbol nm (start_dt today nm conn) today;
                 Stored (List.length
                           (fetch_data idx fund equity symbol nm
                                       (start_dt today nm conn) today));
                 Sleep 500] :: stretches), s, e.
      simpl. rewrite Ht.
      split; [reflexivity|]. split; [reflexivity|].
      constructor; [apply handled_stored | exact Hf].
    + exists [], symbol, nm, rest, [].
      exists (start_dt today nm conn), today.
      split; [reflexivity|]. split; [reflexivity | constructor].
  - revert conn.
    induction target_list as [|[symbol nm] rest IH]; intros conn.
    + unfold fetches, currents, sleeps. simpl.
      split; [lia|]. split; [intros _; split; reflexivity | discriminate].
    + destruct (sync_data_pass idx fund equity today symbol nm rest conn)
        as [_|_ _|conn' _ _ _|_ _ _];
        [destruct (IH conn) as (H1 & H2 & H3)
        |destruct (IH conn) as (H1 & H2 & H3)
        |destruct (IH conn') as (H1 & H2 & H3)
        |];
        unfold fetches, currents, sleeps in *; simpl in *.
      * split; [lia|]. split; intros Hr.
        -- destruct (H2 Hr). split; lia.
        -- specialize (H3 Hr). lia.
      * split; [lia|]. split; intros Hr.
        -- destruct (H2 Hr). split; lia.
        -- specialize (H3 Hr). lia.
      * split; [lia|]. split; intros Hr.
        -- destruct (H2 Hr). split; lia.
        -- specialize (H3 Hr). lia.
      * split; [lia|]. split; [discriminate | reflexivity].
Qed.

(** ** The days of a batch *)

Lemma of_index_bars_dates (bars : list index_bar) :
  map f_date (of_index_bars bars) = map ib_date bars.
Proof.
  unfold of_index_bars. rewrite map_map. simpl.
  rewrite <- (map_map fst ib_date), map_fst_combine; [reflexivity|].
  now rewrite pct_change_100_length, length_map.
Qed.

Lemma of_hist_bars_dates (bars : list hist_bar) :
  map f_date (of_hist_bars bars) = map hb_date bars.
Proof.
  unfold of_hist_bars. now rewrite map_map.
Qed.

Lemma windowed_dates (s e : date) (df : list frame_row) :
  map f_date (windowed s e df) = filter (in_window s e) (map f_date df).
Proof.
  unfold windowed. induction df as [|f df IH]; [reflexivity|]. simpl.
  destruct (in_window s e (f_date f)); simpl; now rewrite IH.
Qed.

Lemma fetch_data_dates
    (idx : string -> option (list index_bar))
    (fund equity : string -> date -> date -> option (list hist_bar))
    (symbol nm : string) (s e : date) :
  map r_date (fetch_data idx fund equity symbol nm s e) =
  filter (in_window s e) (provider_dates idx fund equity symbol s e).
Proof.
  unfold fetch_data, load, provider_dates. destruct (category_of symbol).
  - destruct (idx symbol) as [bars|]; [|reflexivity]. simpl.
    now rewrite clean_dates, windowed_dates, of_index_bars_dates.
  - destruct (fund symbol s e) as [bars|]; [|reflexivity]. simpl.
    now rewrite clean_dates, windowed_dates, of_hist_bars_dates.
  - destruct (equity symbol s e) as [bars|]; [|reflexivity]. simpl.
    now rewrite clean_dates, windowed_dates, of_hist_bars_dates.
Qed.

Lemma NoDup_filter {A : Type} (p : A -> bool) (l : list A) :
  NoDup l -> NoDup (filter p l).
Proof.
  induction 1 as [|x l Hx Hn IH]; simpl; [constructor|].
  destruct (p x); [|exact IH]. constructor; [|exact IH].
  intros Hin. apply filter_In in Hin. tauto.
Qed.

Lemma fetch_data_distinct
    (idx : string -> option (list index_bar))
    (fund equity : string -> date -> date -> option (list hist_bar))
    (symbol nm : string) (s e : date) :
  one_row_per_day idx fund equity ->
  NoDup (map key (fetch_data idx fund equity symbol nm s e)).
Proof.
  intros (Hi & Hf & He).
  assert (Hd : NoDup (map r_date (fetch_data idx fund equity symbol nm s e))).
  { rewrite fetch_data_dates. apply NoDup_filter. unfold provider_dates.
    destruct (category_of symbol).
    - destruct (idx symbol) as [bars|] eqn:H; [now apply (Hi symbol) | constructor].
    - destruct (fund symbol s e) as [bars|] eqn:H;
        [now apply (Hf symbol s e) | constructor].
    - destruct (equity symbol s e) as [bars|] eqn:H;
        [now apply (He symbol s e) | constructor]. }
  revert Hd. generalize (fetch_data idx fund equity symbol nm s e).
  induction l as [|r l IH]; simpl; intros Hd; [constructor|].
  inversion Hd as [|d ds Hnot Hn]; subst. constructor; [|now apply IH].
  intros Hin. apply Hnot. apply in_map_iff in Hin.
  destruct Hin as [x [Hx Hin]]. apply in_map_iff. exists x.
  split; [|exact Hin]. unfold key in Hx. now injection Hx.
Qed.

(** X5: The batch of [fetch_data] holds, in the provider's order, one record
    for every row of the provider's answer that lies in the window, each
    with the code and the name asked for; for an empty window (the start
    after the end) it is empty. *)
Theorem fetch_data_keeps_provider_rows
    (idx : string -> option (list index_bar))
    (fund equity : string -> date -> date -> option (list hist_bar))
    (symbol nm : string) (s e : date) :
  map r_date (fetch_data idx fund equity symbol nm s e) =
    filter (in_window s e) (provider_dates idx fund equity symbol s e) /\
  Forall (fun r => code r = symbol /\ name r = nm)
         (fetch_data idx fund equity symbol nm s e) /\
  (e < s -> fetch_data idx fund equity symbol nm s e = []).
Proof.
  split; [apply fetch_data_dates|]. split.
  - pose proof (fetch_data_in_window idx fund equity symbol nm s e) as Hw.
    rewrite Forall_forall in *. intros r Hr. now apply Hw.
  - intros Hlt.
    pose proof (fetch_data_in_window idx fund equity symbol nm s e) as Hw.
    destruct (fetch_data idx fund equity symbol nm s e) as [|r l]; [reflexivity|].
    inversion Hw as [|x xs [Hd _] _]; subst. lia.
Qed.

(** ** A run that does not raise *)

Lemma NoDup_fst_functional {A B : Type} (l : list (A * B)) (a : A) (b b' : B) :
  NoDup (map fst l) -> In (a, b) l -> In (a, b') l -> b = b'.
Proof.
  induction l as [|[x y] l IH]; intros Hn H1 H2; [destruct H1|].
  simpl in Hn. inversion Hn as [|k ks Hnot Hn']; subst.
  destruct H1 as [H1|H1], H2 as [H2|H2].
  - congruence.
  - injection H1 as -> ->. exfalso. apply Hnot.
    apply in_map_iff. exists (a, b'). now split.
  - injection H2 as -> ->. exfalso. apply Hnot.
    apply in_map_iff. exists (a, b). now split.
  - now apply IH.
Qed.

Lemma sync_data_labelled
    (idx : string -> option (list index_bar))
    (fund equity : string -> date -> date -> option (list hist_bar))
    (today : date) (all target_list : list (string * string)) (conn : table) :
  NoDup (map fst all) ->
  incl target_list all ->
  labelled all conn ->
  one_row_per_day idx fund equity ->
  raised (sync_data idx fund equity today target_list conn) = false /\
  labelled all (conn_after (sync_data idx fund equity today target_list conn)).
Proof.
  intros Hnd Hincl Hlab Hday. revert conn Hlab.
  induction target_list as [|[symbol nm] rest IH]; intros conn Hlab.
  - split; [reflexivity | exact Hlab].
  - assert (Hrest : incl rest all)
      by (intros x Hx; apply Hincl; now right).
    assert (Hall : In (symbol, nm) all) by (apply Hincl; now left).
    specialize (IH Hrest).
    assert (Htake :
      to_sql conn (fetch_data idx fund equity symbol nm (start_dt today nm conn) today)
      = Some (conn ++ fetch_data idx fund equity symbol nm
                                 (start_dt today nm conn) today)).
    { apply to_sql_fresh; [now apply fetch_data_distinct|].
      intros r Hr. destruct (has_key conn (key r)) eqn:Hk; [|reflexivity].
      exfalso. apply has_key_In, in_map_iff in Hk. destruct Hk as [r' [Hkey Hr']].
      pose proof (fetch_data_in_window idx fund equity symbol nm
                    (start_dt today nm conn) today) as Hw.
      rewrite Forall_forall in Hw. destruct (Hw r Hr) as (Hd & Hc & Hn).
      unfold key in Hkey. injection Hkey as Hdate Hcode.
      assert (Hn' : name r' = nm)
        by (apply (Hlab r' symbol nm Hr' Hall); congruence).
      pose proof (start_dt_after today nm conn r' Hr' Hn'). lia. }
    assert (Hlab' :
      labelled all (conn ++ fetch_data idx fund equity symbol nm
                                       (start_dt today nm conn) today)).
    { intros r c n Hr Hin Hc. apply in_app_or in Hr. destruct Hr as [Hr|Hr].
      - now apply (Hlab r c n).
      - pose proof (fetch_data_in_window idx fund equity symbol nm
                      (start_dt today nm conn) today) as Hw.
        rewrite Forall_forall in Hw. destruct (Hw r Hr) as (_ & Hc' & Hn).
        rewrite Hn. apply (NoDup_fst_functional all symbol); try assumption.
        congruence. }
    destruct (sync_data_pass idx fund equity today symbol nm rest conn)
      as [_|_ _|conn' _ _ Hs|_ _ Hs]; simpl.
    + now apply IH.
    + now apply IH.
    + rewrite Htake in Hs. injection Hs as <-. now apply IH.
    + rewrite Htake in Hs. discriminate Hs.
Qed.

(** X6: With codes that are listed once, a table in which every listed code is
    stored under its listed name, and a provider that never answers with a
    day twice, a run does not raise, and it leaves such a table. *)
Theorem sync_data_never_raises
    (idx : string -> option (list index_bar))
    (fund equity : string -> date -> date -> option (list hist_bar))
    (today : date) (target_list : list (string * string)) (conn : table) :
  NoDup (map fst target_list) ->
  labelled target_list conn ->
  one_row_per_day idx fund equity ->
  raised (sync_data idx fund equity today target_list conn) = false /\
  labelled target_list
           (conn_after (sync_data idx fund equity today target_list conn)).
Proof.
  intros Hnd Hlab Hday.
  apply sync_data_labelled; try assumption. apply incl_refl.
Qed.

Lemma ex_one_row_per_day : one_row_per_day ex_index ex_fund ex_equity.
Proof.
  assert (Hetf : NoDup (map hb_date ex_etf_bars))
    by (unfold ex_etf_bars, day0; simpl; repeat constructor; simpl; intuition lia).
  assert (Hidx : NoDup (map ib_date ex_index_bars))
    by (unfold ex_index_bars, day0; simpl; repeat constructor; simpl; intuition lia).
  split; [|split].
  - intros symbol bars. unfold ex_index.
    destruct (String.eqb symbol "sh000001"); [|discriminate].
    intros H. injection H as <-. exact Hidx.
  - intros symbol s e bars. unfold ex_fund.
    destruct (String.eqb symbol "513100");
      [intros H; injection H as <-; exact Hetf|].
    destruct (String.eqb symbol "159919"); [discriminate|].
    intros H. injection H as <-. constructor.
  - intros symbol s e bars H. discriminate H.
Qed.

Lemma sync_data_never_raises_witness :
  raised (collector_main ex_index ex_fund ex_equity ex_today None) = false /\
  List.length (conn_after (collector_main ex_index ex_fund ex_equity ex_today None))
  = 7%nat.
Proof.
  assert (Hcodes : NoDup (map fst monitored_targets))
    by (simpl; repeat constructor; simpl; intuition discriminate).
  assert (Hlab : labelled monitored_targets (_init_db None))
    by (intros r symbol nm []).
  split; [|reflexivity].
  exact (proj1 (sync_data_never_raises ex_index ex_fund ex_equity ex_today
                  monitored_targets (_init_db None) Hcodes Hlab ex_one_row_per_day)).
Defined.

(** ** The window of the rolling mean *)

Lemma skipn_cons_nth {A : Type} (l : list A) (i : nat) (x d : A) (rest : list A) :
  skipn i l = x :: rest -> nth i l d = x /\ skipn (S i) l = rest.
Proof.
  revert l. induction i as [|i IH]; intros [|y l] H; simpl in *;
    try discriminate.
  - injection H as -> ->. now split.
  - now apply IH.
Qed.

(** The loop of [roll_mean], row by row. *)
Lemma roll_mean_from_states (values : list float) (w : nat) (minp : Z)
    (todo : list float) (i : nat) :
  skipn i values = todo ->
  roll_mean_from values w minp i (state_before values w i) todo =
  map (fun j => calc_mean minp (state_before values w (S j)))
      (seq i (List.length todo)).
Proof.
  revert i. induction todo as [|val rest IH]; intros i Hs; [reflexivity|].
  destruct (skipn_cons_nth values i val nan rest Hs) as [Hv Hrest].
  cbn [roll_mean_from List.length seq map]. rewrite <- Hv.
  change (add_mean (nth i values nan)
            (if (w <=? i)%nat
             then remove_mean (nth (i - w) values nan) (state_before values w i)
             else state_before values w i))
    with (state_before values w (S i)).
  f_equal. exact (IH (S i) Hrest).
Qed.

Lemma rolling_mean_nth (w : nat) (xs : list float) (i : nat) (m : float) :
  nth_error (rolling_mean w xs) i = Some m ->
  m = calc_mean (Z.of_nat w) (state_before (map prep_value xs) w (S i)).
Proof.
  unfold rolling_mean. cbv zeta.
  change (mean_start (map prep_value xs))
    with (state_before (map prep_value xs) w 0).
  rewrite (roll_mean_from_states (map prep_value xs) w (Z.of_nat w)
             (map prep_value xs) 0 eq_refl).
  intros H. rewrite nth_error_map in H.
  destruct (nth_error (seq 0 (List.length (map prep_value xs))) i) as [j|] eqn:Hj;
    [|discriminate H].
  assert (Hlt : (i < List.length (map prep_value xs))%nat).
  { assert (Hn : nth_error (seq 0 (List.length (map prep_value xs))) i <> None)
      by (rewrite Hj; discriminate).
    apply nth_error_Some in Hn. now rewrite length_seq in Hn. }
  rewrite nth_error_seq in Hj. apply Nat.ltb_lt in Hlt. rewrite Hlt in Hj.
  injection Hj as <-. simpl in H. now injection H.
Qed.

Lemma nobs_add_mean (val : float) (st : mean_state) :
  nobs (add_mean val st) = nobs st + (if is_nan val then 0 else 1).
Proof.
  unfold add_mean. destruct (is_nan val); simpl; lia.
Qed.

Lemma nobs_remove_mean (val : float) (st : mean_state) :
  nobs (remove_mean val st) = nobs st - (if is_nan val then 0 else 1).
Proof.
  unfold remove_mean. destruct (is_nan val); simpl; lia.
Qed.

Lemma count_present_S (values : list float) (lo len : nat) :
  count_present values lo (S len) =
  count_present values lo len + present values (lo + len).
Proof.
  unfold count_present. revert lo. induction len as [|len IH]; intros lo.
  - simpl. rewrite Nat.add_0_r. lia.
  - change (seq lo (S (S len))) with (lo :: seq (S lo) (S len)).
    change (seq lo (S len)) with (lo :: seq (S lo) len).
    cbn [map fold_right]. rewrite IH.
    replace (S lo + len)%nat with (lo + S len)%nat by lia. lia.
Qed.

Lemma count_present_bounds (values : list float) (lo len : nat) :
  0 <= count_present values lo len <= Z.of_nat len.
Proof.
  induction len as [|len IH]; [unfold count_present; simpl; lia|].
  rewrite count_present_S. unfold present.
  destruct (is_nan (nth (lo + len) values nan)); lia.
Qed.

Lemma count_present_missing (values : list float) (lo len j : nat) :
  (lo <= j < lo + len)%nat -> present values j = 0 ->
  count_present values lo len < Z.of_nat len.
Proof.
  induction len as [|len IH]; intros Hj Hp; [lia|].
  rewrite count_present_S.
  destruct (Nat.eq_dec j (lo + len)) as [->|Hne].
  - rewrite Hp. pose proof (count_present_bounds values lo len). lia.
  - assert (H : count_present values lo len < Z.of_nat len) by (apply IH; [lia | exact Hp]).
    unfold present. destruct (is_nan (nth (lo + len) values nan)); lia.
Qed.

Lemma count_present_all (values : list float) (lo len : nat) :
  (forall j, (lo <= j < lo + len)%nat -> present values j = 1) ->
  count_present values lo len = Z.of_nat len.
Proof.
  induction len as [|len IH]; intros H; [reflexivity|].
  rewrite count_present_S, IH, H; [lia | lia |].
  intros j Hj. apply H. lia.
Qed.

(** The number of values in the sum is the number of values that are
    there among the last [w] rows. *)
Lemma nobs_state_before (values : list float) (w n : nat) :
  (0 < w)%nat ->
  nobs (state_before values w n) = count_present values (n - w) (Nat.min n w).
Proof.
  intros Hw. induction n as [|n IH]; [reflexivity|].
  simpl state_before. rewrite nobs_add_mean.
  fold (present values n).
  destruct (Nat.leb_spec w n) as [Hle|Hlt].
  - rewrite nobs_remove_mean, IH. fold (present values (n - w)).
    replace (Nat.min n w) with w by lia.
    replace (Nat.min (S n) w) with w by lia.
    replace (S n - w)%nat with (S (n - w)) by lia.
    destruct w as [|w']; [lia|].
    rewrite (count_present_S values (S (n - S w')) w').
    replace (S (n - S w') + w')%nat with n by lia.
    unfold count_present at 1.
    change (seq (n - S w') (S w')) with ((n - S w')%nat :: seq (S (n - S w')) w').
    cbn [map fold_right]. fold (count_present values (S (n - S w')) w'). lia.
  - rewrite IH.
    replace (Nat.min n w) with n by lia.
    replace (Nat.min (S n) w) with (S n) by lia.
    replace (n - w)%nat with 0%nat by lia.
    replace (S n - w)%nat with 0%nat by lia.
    now rewrite count_present_S.
Qed.

Lemma same_value_nonneg (values : list float) (w n : nat) :
  0 <= num_consecutive_same_value (state_before values w n).
Proof.
  induction n as [|n IH]; [simpl; lia|].
  simpl state_before. unfold add_mean.
  destruct (is_nan (nth n values nan)).
  - destruct (w <=? n)%nat; [|exact IH].
    unfold remove_mean. now destruct (is_nan (nth (n - w) values nan)).
  - cbn [num_consecutive_same_value].
    destruct (nth n values nan =? _)%float; [|lia].
    destruct (w <=? n)%nat; [|lia].
    unfold remove_mean. destruct (is_nan (nth (n - w) values nan)); simpl; lia.
Qed.

Lemma remove_mean_same_value (val : float) (st : mean_state) :
  num_consecutive_same_value (remove_mean val st) = num_consecutive_same_value st /\
  prev_value (remove_mean val st) = prev_value st.
Proof.
  unfold remove_mean. now destruct (is_nan val).
Qed.

(** After [k + 1] rows in a row with one and the same value the run of
    equal values is at least that long. *)
Lemma same_value_run (values : list float) (w : nat) (v : float) (k n : nat) :
  is_nan v = false ->
  (forall j, (n <= j < n + S k)%nat -> nth j values nan = v) ->
  Z.of_nat (S k) <= num_consecutive_same_value (state_before values w (n + S k)) /\
  prev_value (state_before values w (n + S k)) = v.
Proof.
  intros Hv. induction k as [|k IH]; intros Hall.
  - replace (n + 1)%nat with (S n) by lia. simpl state_before.
    rewrite (Hall n) by lia. unfold add_mean. rewrite Hv.
    cbn [num_consecutive_same_value prev_value]. split; [|reflexivity].
    pose proof (same_value_nonneg values w n) as H0.
    destruct (v =? _)%float; [|lia].
    destruct (w <=? n)%nat; [|lia].
    destruct (remove_mean_same_value (nth (n - w) values nan)
                (state_before values w n)) as [-> _]. lia.
  - destruct IH as [Hk Hp]; [intros j Hj; apply Hall; lia|].
    replace (n + S (S k))%nat with (S (n + S k)) by lia. simpl state_before.
    rewrite (Hall (n + S k)%nat) by lia. unfold add_mean. rewrite Hv.
    cbn [num_consecutive_same_value prev_value]. split; [|reflexivity].
    assert (Hvv : (v =? v)%float = true).
    { unfold is_nan in Hv. now destruct (v =? v)%float. }
    destruct (w <=? n + S k)%nat.
    + destruct (remove_mean_same_value (nth (n + S k - w) values nan)
                  (state_before values w (n + S k))) as [-> ->].
      rewrite Hp, Hvv. lia.
    + rewrite Hp, Hvv. lia.
Qed.

Lemma prep_value_nth (xs : list float) (j : nat) :
  nth j (map prep_value xs) nan = prep_value (nth j xs nan).
Proof.
  change nan with (prep_value nan) at 1. apply map_nth.
Qed.

(** A value that is missing or infinite among the five that end at row
    [i] leaves the mean at [i] missing. *)
Lemma rolling_mean_missing (xs : list float) (i j : nat) (m : float) :
  nth_error (rolling_mean 5 xs) i = Some m ->
  (i - 4 <= j <= i)%nat ->
  is_nan (nth j xs nan) = true \/ is_infinity (nth j xs nan) = true ->
  m = nan.
Proof.
  intros Hm Hj Hmiss. rewrite (rolling_mean_nth 5 xs i m Hm).
  apply calc_mean_few. rewrite nobs_state_before by lia.
  assert (Hp : present (map prep_value xs) j = 0).
  { unfold present. rewrite prep_value_nth. unfold prep_value.
    destruct (is_infinity (nth j xs nan)); [reflexivity|].
    destruct Hmiss as [->|H]; [reflexivity | discriminate H]. }
  pose proof (count_present_missing (map prep_value xs) (S i - 5)
                (Nat.min (S i) 5) j) as Hc.
  assert (Hlen : Z.of_nat (Nat.min (S i) 5) <= 5) by lia.
  destruct (Nat.le_gt_cases 4 i) as [H4|H4].
  - specialize (Hc ltac:(lia) Hp). change (Z.of_nat 5) with 5. lia.
  - pose proof (count_present_bounds (map prep_value xs) (S i - 5)
                  (Nat.min (S i) 5)). change (Z.of_nat 5) with 5. lia.
Qed.

(** Five equal values: the mean is the value. *)
Lemma rolling_mean_same (xs : list float) (i : nat) (m v : float) :
  nth_error (rolling_mean 5 xs) i = Some m ->
  (4 <= i)%nat ->
  is_nan v = false -> is_infinity v = false ->
  (forall j, (i - 4 <= j <= i)%nat -> nth j xs nan = v) ->
  m = v.
Proof.
  intros Hm Hi Hn Hinf Hall. rewrite (rolling_mean_nth 5 xs i m Hm).
  assert (Hvals : forall j, (i - 4 <= j < i - 4 + 5)%nat ->
                            nth j (map prep_value xs) nan = v).
  { intros j Hj. rewrite prep_value_nth, Hall by lia.
    unfold prep_value. now rewrite Hinf. }
  assert (Hnobs : nobs (state_before (map prep_value xs) 5 (S i)) = 5).
  { rewrite nobs_state_before by lia.
    replace (S i - 5)%nat with (i - 4)%nat by lia.
    replace (Nat.min (S i) 5) with 5%nat by lia.
    rewrite count_present_all; [reflexivity|].
    intros j Hj. unfold present. now rewrite Hvals, Hn. }
  destruct (same_value_run (map prep_value xs) 5 v 4 (i - 4) Hn Hvals)
    as [Hrun Hprev].
  replace (i - 4 + 5)%nat with (S i) in * by lia.
  unfold calc_mean. rewrite Hnobs. change (Z.of_nat 5) with 5.
  cbn [Z.leb Z.ltb Z.compare Pos.compare Pos.compare_cont andb].
  destruct (Z.leb_spec 5 (num_consecutive_same_value
                            (state_before (map prep_value xs) 5 (S i))));
    [exact Hprev | lia].
Qed.

Lemma fillna_not_nan (dflt x : float) :
  is_nan dflt = false -> is_nan (fillna dflt x) = false.
Proof.
  intros Hd. unfold fillna. now destruct (is_nan x) eqn:Hx.
Qed.

(** What the rounding and the mean do on float64, on three batches: a
    quotient next below a tie (203 / 200), a mean that underflows to zero,
    and a batch with a missing amount. *)
Lemma vol_ratios_float64 :
  vol_ratios [200; 200; 200; 197; 203]%float
  = [1; 1; 1; 1; 101 / 100]%float /\
  vol_ratios [0; 0; 0; 0; 0x1p-1074]%float = [1; 1; 1; 1; infinity]%float /\
  vol_ratios [1; 1; nan; 1; 1; 1]%float = [1; 1; 1; 1; 1; 1]%float.
Proof.
  repeat split.
Qed.

(** X7: No record of a batch has a missing [vol_ratio]; from the fifth
    record on, the [vol_ratio] of a record is 1.0 whenever one of the five
    amounts of the batch that end with its own is missing or infinite. *)
Theorem vol_ratio_never_missing
    (idx : string -> option (list index_bar))
    (fund equity : string -> date -> date -> option (list hist_bar))
    (symbol nm : string) (s e : date) :
  let batch := fetch_data idx fund equity symbol nm s e in
  Forall (fun r => is_nan (vol_ratio r) = false) batch /\
  (forall i j r a,
     nth_error batch i = Some r -> (4 <= i)%nat ->
     (i - 4 <= j <= i)%nat -> nth_error (amounts_of batch) j = Some a ->
     is_nan a = true \/ is_infinity a = true ->
     vol_ratio r = 1%float).
Proof.
  cbv zeta. split.
  - apply Forall_forall. intros r Hr.
    destruct (In_nth_error _ _ Hr) as [i Hi].
    destruct (fetch_data_vol_ratio_nth idx fund equity symbol nm s e i r Hi)
      as (m & _ & ->).
    now apply fillna_not_nan.
  - intros i j r a Hr Hi Hj Ha Hmiss.
    destruct (fetch_data_vol_ratio_nth idx fund equity symbol nm s e i r Hr)
      as (m & Hm & ->).
    rewrite (rolling_mean_missing _ i j m Hm Hj).
    + apply vol_ratio_of_nan_mean.
    + now rewrite (nth_error_nth _ _ nan Ha).
Qed.

Lemma vol_ratio_never_missing_witness :
  map vol_ratio (fetch_data ex_index ex_gap_fund ex_equity "513100" "Nasdaq ETF"
                            day0 (day0 + 6))
  = [1; 1; 1; 1; 1; 1]%float /\
  exists r,
    nth_error (fetch_data ex_index ex_gap_fund ex_equity "513100" "Nasdaq ETF"
                          day0 (day0 + 6)) 5 = Some r /\
    amount r = 4%float /\ vol_ratio r = 1%float.
Proof.
  split; [reflexivity|].
  eexists. split; [reflexivity|]. split; [reflexivity|].
  refine (proj2 (vol_ratio_never_missing ex_index ex_gap_fund ex_equity
                   "513100" "Nasdaq ETF" day0 (day0 + 6))
                5%nat 2%nat _ nan eq_refl _ _ eq_refl (or_introl eq_refl)); lia.
Defined.

(** X8: When the five amounts of a batch that end with a record's own are
    one and the same number, the rolling mean at the record is that number
    itself, with no rounding error from the sum, and the record's
    [vol_ratio] is 1.0. *)
Theorem vol_ratio_of_equal_amounts
    (idx : string -> option (list index_bar))
    (fund equity : string -> date -> date -> option (list hist_bar))
    (symbol nm : string) (s e : date) (i : nat) (r : DailyRecord) (v : float) :
  let batch := fetch_data idx fund equity symbol nm s e in
  nth_error batch i = Some r ->
  (4 <= i)%nat ->
  is_nan v = false -> is_infinity v = false ->
  (forall j, (i - 4 <= j <= i)%nat -> nth_error (amounts_of batch) j = Some v) ->
  nth_error (rolling_mean 5 (amounts_of batch)) i = Some v /\
  vol_ratio r = 1%float.
Proof.
  cbv zeta. intros Hr Hi Hn Hinf Hall.
  destruct (fetch_data_vol_ratio_nth idx fund equity symbol nm s e i r Hr)
    as (m & Hm & Hv).
  assert (Hmv : m = v).
  { apply (rolling_mean_same _ i m v Hm Hi Hn Hinf).
    intros j Hj. now rewrite (nth_error_nth _ _ nan (Hall j Hj)). }
  assert (Ha : amount r = v).
  { assert (H : nth_error (amounts_of (fetch_data idx fund equity symbol nm s e)) i
                = Some (amount r)) by now apply map_nth_error.
    rewrite (Hall i) in H by lia. now injection H. }
  subst m. split; [exact Hm|]. rewrite Hv, Ha.
  destruct (is_zero v) eqn:Hz.
  - now rewrite div_zero_zero.
  - now rewrite div_same.
Qed.

Lemma vol_ratio_of_equal_amounts_witness :
  exists r,
    nth_error (fetch_data ex_index ex_flat_fund ex_equity "513100" "Nasdaq ETF"
                          day0 (day0 + 5)) 4 = Some r /\
    amount r = (1 / 3)%float /\
    vol_ratio r = 1%float.
Proof.
  eexists. split; [reflexivity|]. split; [reflexivity|].
  refine (proj2 (vol_ratio_of_equal_amounts ex_index ex_flat_fund ex_equity
                   "513100" "Nasdaq ETF" day0 (day0 + 5) 4 _ (1 / 3)%float
                   eq_refl (le_n 4) eq_refl eq_refl _)).
  intros j Hj.
  assert (Hc : j = 0%nat \/ j = 1%nat \/ j = 2%nat \/ j = 3%nat \/ j = 4%nat) by lia.
  destruct Hc as [->|[->|[->|[->| ->]]]]; reflexivity.
Defined.

(** ** What the viewer reads *)

Lemma load_data_In (db : database) (s e : date) (r : DailyRecord) :
  In r (load_data db s e) <->
  exists t, db = Some t /\ In r t /\ s <= r_date r <= e.
Proof.
  unfold load_data. destruct db as [t|].
  - rewrite filter_In, andb_true_iff, !Z.leb_le. split.
    + intros [H1 H2]. exists t. tauto.
    + intros (t' & Ht & H1 & H2). injection Ht as <-. tauto.
  - split; [intros [] | intros (t & Ht & _); discriminate].
Qed.

Lemma filter_all {A : Type} (p : A -> bool) (l : list A) :
  (forall x, In x l -> p x = true) -> filter p l = l.
Proof.
  induction l as [|x l IH]; intros H; [reflexivity|]. simpl.
  rewrite (H x (or_introl eq_refl)). f_equal. apply IH.
  intros y Hy. apply H. now right.
Qed.

Lemma sync_data_last_30_days
    (idx : string -> option (list index_bar))
    (fund equity : string -> date -> date -> option (list hist_bar))
    (today : date) (target_list : list (string * string)) (conn : table) :
  (forall r, In r conn -> today - 30 <= r_date r <= today) ->
  forall r, In r (conn_after (sync_data idx fund equity today target_list conn)) ->
            today - 30 <= r_date r <= today.
Proof.
  revert conn. induction target_list as [|[symbol nm] rest IH];
    intros conn Hconn r Hr.
  - now apply Hconn.
  - revert Hr.
    destruct (sync_data_pass idx fund equity today symbol nm rest conn)
      as [_|_ _|conn' _ _ Hs|_ _ _]; simpl conn_after; intros Hr.
    + now apply (IH conn).
    + now apply (IH conn).
    + apply (IH conn'); [|exact Hr].
      apply to_sql_app in Hs. subst conn'. intros x Hx.
      apply in_app_or in Hx. destruct Hx as [Hx|Hx]; [now apply Hconn|].
      pose proof (fetch_data_in_window idx fund equity symbol nm
                    (start_dt today nm conn) today) as Hw.
      rewrite Forall_forall in Hw. destruct (Hw x Hx) as (Hd & _).
      assert (Hrec : recent today nm conn) by (intros y Hy _; now apply Hconn).
      pose proof (recent_start_dt today today nm conn (Z.le_refl _) Hrec). lia.
    + now apply Hconn.
Qed.

(** X9: The viewer's default range, the last 30 days, is the collector's
    look-back: when every row of the table lies in it, so does every row
    after a run of that day, and [load_data] over that range then returns
    the whole table, while [load_data] over any range never loses a row to
    a run. *)
Theorem load_data_shows_the_run
    (idx : string -> option (list index_bar))
    (fund equity : string -> date -> date -> option (list hist_bar))
    (today : date) (target_list : list (string * string)) (conn : table) :
  (forall r, In r conn -> today - 30 <= r_date r <= today) ->
  let after := conn_after (sync_data idx fund equity today target_list conn) in
  (forall r, In r (load_data (Some after) (today - 30) today) <-> In r after) /\
  List.length (load_data (Some after) (today - 30) today) = List.length after /\
  (forall s e r, In r (load_data (Some conn) s e) ->
                 In r (load_data (Some after) s e)).
Proof.
  intros Hconn. cbv zeta.
  assert (Hall : load_data (Some (conn_after
                    (sync_data idx fund equity today target_list conn)))
                   (today - 30) today
                 = conn_after (sync_data idx fund equity today target_list conn)).
  { unfold load_data. apply filter_all. intros r Hr.
    pose proof (sync_data_last_30_days idx fund equity today target_list conn
                  Hconn r Hr).
    apply andb_true_iff. rewrite !Z.leb_le. lia. }
  rewrite Hall. split; [tauto|]. split; [reflexivity|].
  intros s e r Hr. apply load_data_In in Hr.
  destruct Hr as (t & Ht & Hin & Hd). injection Ht as <-.
  apply load_data_In. eexists. split; [reflexivity|].
  split; [now apply sync_data_keeps | exact Hd].
Qed.

Lemma load_data_shows_the_run_witness :
  List.length
    (load_data
       (Some (conn_after (collector_main ex_index ex_fund ex_equity ex_today None)))
       (ex_today - 30) ex_today)
  = 7%nat.
Proof.
  assert (Hempty : forall r, In r (_init_db None) ->
                             ex_today - 30 <= r_date r <= ex_today)
    by (intros r []).
  destruct (load_data_shows_the_run ex_index ex_fund ex_equity ex_today
              monitored_targets (_init_db None) Hempty) as (_ & Hlen & _).
  exact Hlen.
Defined.

(** ** The collector started again and again *)

(** X10: Started on a new database, or on one that only the collector has
    written, the collector never raises, however often it is started and
    whatever the provider answers from one start to the next, as long as no
    answer holds a day twice. *)
Theorem collector_runs_never_raise (worlds : list world) (db : database) :
  labelled monitored_targets (_init_db db) ->
  Forall (fun w => one_row_per_day (w_index w) (w_fund w) (w_equity w)) worlds ->
  Forall (fun r => raised r = false) (collector_runs worlds db).
Proof.
  assert (Hcodes : NoDup (map fst monitored_targets))
    by (simpl; repeat constructor; simpl; intuition discriminate).
  intros Hlab Hday. revert db Hlab.
  induction Hday as [|w rest Hw Hrest IH]; intros db Hlab; simpl; [constructor|].
  destruct (sync_data_labelled (w_index w) (w_fund w) (w_equity w) (w_today w)
              monitored_targets monitored_targets (_init_db db) Hcodes
              (incl_refl _) Hlab Hw) as [Hok Hlab'].
  constructor; [exact Hok|]. apply IH. exact Hlab'.
Qed.

Lemma collector_runs_never_raise_witness :
  let tomorrow := {| w_index := ex_index; w_fund := ex_fund;
                     w_equity := ex_equity; w_today := ex_today + 1 |} in
  let first := {| w_index := ex_index; w_fund := ex_fund;
                  w_equity := ex_equity; w_today := ex_today |} in
  Forall (fun r => raised r = false) (collector_runs [first; tomorrow] None) /\
  map (fun r => List.length (conn_after r)) (collector_runs [first; tomorrow] None)
  = [7; 7]%nat.
Proof.
  cbv zeta. split; [|reflexivity].
  apply collector_runs_never_raise.
  - intros r symbol nm [].
  - constructor; [exact ex_one_row_per_day|].
    constructor; [exact ex_one_row_per_day|]. constructor.
Defined.

(** ** The index's percent change *)

Lemma nth_error_combine_both {A B : Type} (l : list A) (l' : list B) (i : nat)
    (a : A) (b : B) :
  nth_error l i = Some a -> nth_error l' i = Some b ->
  nth_error (combine l l') i = Some (a, b).
Proof.
  revert l' i. induction l as [|x l IH]; intros [|y l'] [|i] Ha Hb; simpl in *;
    try discriminate.
  - injection Ha as ->. injection Hb as ->. reflexivity.
  - now apply IH.
Qed.

Lemma pct_of_same (p : float) :
  is_nan p = false -> is_infinity p = false -> is_zero p = false ->
  pct_of p p = 0%float.
Proof.
  intros Hn Hi Hz. unfold pct_of. rewrite Hn, (div_same p Hn Hi Hz).
  reflexivity.
Qed.

(** X11: A day on which an index closes where it closed on the row above
    (a number other than zero) has a percent change of exactly 0.0: when
    the day lies inside the window the batch holds its record, with the
    provider's close and [pct_chg] 0.0. *)
Theorem index_flat_day_has_zero_pct_chg
    (idx : string -> option (list index_bar))
    (fund equity : string -> date -> date -> option (list hist_bar))
    (symbol nm : string) (s e : date) (bars : list index_bar) (i : nat)
    (b0 b1 : index_bar) :
  category_of symbol = Index ->
  idx symbol = Some bars ->
  nth_error bars i = Some b0 ->
  nth_error bars (S i) = Some b1 ->
  ib_close b1 = ib_close b0 ->
  is_nan (ib_close b0) = false ->
  is_infinity (ib_close b0) = false ->
  is_zero (ib_close b0) = false ->
  s <= ib_date b1 <= e ->
  exists r,
    In r (fetch_data idx fund equity symbol nm s e) /\
    r_date r = ib_date b1 /\ close r = ib_close b1 /\ pct_chg r = 0%float.
Proof.
  intros Hcat Hidx H0 H1 Hsame Hn Hi Hz Hw.
  pose proof (fetch_data_index_rows idx fund equity symbol nm s e bars Hcat Hidx)
    as Hrows.
  assert (Hpct : nth_error (pct_change_100 (map ib_close bars)) (S i)
                 = Some 0%float).
  { rewrite (pct_change_100_nth _ i (ib_close b0) (ib_close b1));
      [| now apply map_nth_error | exact Hn | now apply map_nth_error].
    now rewrite Hsame, pct_of_same. }
  pose proof (nth_error_combine_both _ _ _ _ _ H1 Hpct) as Hc.
  apply nth_error_In in Hc.
  assert (Hin : In (ib_date b1, ib_close b1, 0%float)
                   (map (fun r => (r_date r, close r, pct_chg r))
                        (fetch_data idx fund equity symbol nm s e))).
  { rewrite Hrows. apply filter_In. split.
    - apply in_map_iff. exists (b1, 0%float). now split.
    - unfold in_window. simpl. apply andb_true_iff. lia. }
  apply in_map_iff in Hin. destruct Hin as (r & Hr & Hin).
  exists r. injection Hr as Hd Hcl Hp. now split.
Qed.

Lemma index_flat_day_has_zero_pct_chg_witness :
  exists r,
    In r (fetch_data ex_flat_index ex_fund ex_equity "sh000001" "SSE Composite"
                     ex_today ex_today) /\
    r_date r = day0 + 5 /\ close r = 3050.25%float /\ pct_chg r = 0%float.
Proof.
  refine (index_flat_day_has_zero_pct_chg ex_flat_index ex_fund ex_equity
            "sh000001" "SSE Composite" ex_today ex_today _ 0 _ _
            eq_refl eq_refl eq_refl eq_refl eq_refl eq_refl eq_refl eq_refl _).
  vm_compute. split; discriminate.
Defined.

(** ** The viewer's names *)

Lemma isin_fetch_data
    (idx : string -> option (list index_bar))
    (fund equity : string -> date -> date -> option (list hist_bar))
    (selected_targets : list string) (symbol nm : string) (s e : date) :
  isin selected_targets (fetch_data idx fund equity symbol nm s e) =
  if existsb (String.eqb nm) selected_targets
  then fetch_data idx fund equity symbol nm s e
  else [].
Proof.
  pose proof (fetch_data_in_window idx fund equity symbol nm s e) as Hw.
  unfold isin.
  induction (fetch_data idx fund equity symbol nm s e) as [|r batch IH].
  - now destruct (existsb (String.eqb nm) selected_targets).
  - inversion Hw as [|r' batch' (_ & _ & Hn) Hrest]; subst.
    simpl. rewrite (IH Hrest).
    now destruct (existsb (String.eqb (name r)) selected_targets).
Qed.


(** ** The viewer's units *)

Lemma Qfloor_unique (f : Z) (x : Q) :
  (inject_Z f <= x)%Q -> (x < inject_Z f + 1)%Q -> Qfloor x = f.
Proof.
  intros Hlo Hhi.
  pose proof (Qfloor_le x) as H1. pose proof (Qlt_floor x) as H2.
  rewrite inject_Z_plus in H2. change (inject_Z 1) with 1%Q in H2.
  assert (Ha : Qfloor x < f + 1).
  { rewrite Zlt_Qlt, inject_Z_plus. change (inject_Z 1) with 1%Q. lra. }
  assert (Hb : f < Qfloor x + 1).
  { rewrite Zlt_Qlt, inject_Z_plus. change (inject_Z 1) with 1%Q. lra. }
  lia.
Qed.

Lemma rint_upper_half (f : Z) (x : Q) :
  Z.even f = false ->
  (inject_Z f + (1 # 2) <= x)%Q -> (x < inject_Z f + 1)%Q -> rint x = f + 1.
Proof.
  intros Hodd Hlo Hhi.
  assert (Hf : Qfloor x = f) by (apply Qfloor_unique; lra).
  unfold rint. cbv zeta. rewrite Hf, Hodd.
  destruct (Qcompare_spec (x - inject_Z f) (1 # 2)) as [He|Hl|Hg];
    [reflexivity | lra | reflexivity].
Qed.

(** X13: [format_unit] chooses the unit before it rounds: an amount from
    99,999,950 up to, but not reaching, 100,000,000 is shown as 10000.00万
    (not as 1.00亿), and one ten-thousandth of it as 10000.00 (not as
    1.00万). *)
Theorem format_unit_rounds_after_the_unit (q : Q) :
  (99999950 <= q)%Q -> (q < 100000000)%Q ->
  format_unit (Fin q) "amount" = "10000.00万"%string /\
  format_unit (Fin (q / 10000)) "amount" = "10000.00"%string.
Proof.
  intros Hlo Hhi.
  assert (Hr : forall y, (y == q / 10000)%Q -> rint (y * 100) = 1000000).
  { intros y Hy. apply (rint_upper_half 999999); [reflexivity| |].
    - change (inject_Z 999999) with 999999%Q. rewrite Hy.
      assert (He : (q / 10000 * 100 == q * (1 # 100))%Q) by (field; lra).
      rewrite He. lra.
    - change (inject_Z 999999) with 999999%Q. rewrite Hy.
      assert (He : (q / 10000 * 100 == q * (1 # 100))%Q) by (field; lra).
      rewrite He. lra. }
  assert (Hsign : forall y, (y == q / 10000)%Q ->
            match (y ?= 0)%Q with Lt => "-"%string | _ => ""%string end
            = ""%string).
  { intros y Hy.
    assert (Hpos : (0 < q / 10000)%Q) by (apply Qlt_shift_div_l; lra).
    destruct (Qcompare_spec y 0) as [He|Hl|Hg]; try reflexivity.
    rewrite Hy in Hl. lra. }
  split.
  - unfold format_unit. simpl String.eqb. cbv iota.
    unfold fge.
    assert (H8 : Qle_bool 100000000 q = false).
    { destruct (Qle_bool 100000000 q) eqn:H; [|reflexivity].
      apply Qle_bool_iff in H. lra. }
    assert (H4 : Qle_bool 10000 q = true) by (apply Qle_bool_iff; lra).
    rewrite H8, H4. unfold fmap, format_2f. cbv zeta.
    rewrite (Hr _ (Qred_correct _)), (Hsign _ (Qred_correct _)). reflexivity.
  - unfold format_unit. simpl String.eqb. cbv iota.
    unfold fge.
    assert (Hq : (q / 10000 < 10000)%Q) by (apply Qlt_shift_div_r; lra).
    assert (H8 : Qle_bool 100000000 (q / 10000) = false).
    { destruct (Qle_bool 100000000 (q / 10000)) eqn:H; [|reflexivity].
      apply Qle_bool_iff in H. lra. }
    assert (H4 : Qle_bool 10000 (q / 10000) = false).
    { destruct (Qle_bool 10000 (q / 10000)) eqn:H; [|reflexivity].
      apply Qle_bool_iff in H. lra. }
    rewrite H8, H4. unfold format_2f. cbv zeta.
    rewrite (Hr _ (Qeq_refl _)), (Hsign _ (Qeq_refl _)). reflexivity.
Qed.

Lemma format_unit_rounds_after_the_unit_witness :
  format_unit (Fin 99999999) "amount" = "10000.00万"%string /\
  format_unit (Fin (99999999 / 10000)) "amount" = "10000.00"%string.
Proof.
  apply format_unit_rounds_after_the_unit; vm_compute; [discriminate | reflexivity].
Defined.
